(** * Pipedrive plugin: search, disambiguation and response assembly

    A shallow embedding of the two actions of the plugin,
    [getPipedriveLeadOrDealInfo] (flow A) and
    [getPipedriveLeadOrDealSummary] (flow B), and the properties of
    their scorers, their error handling and the response assembler. *)

From Stdlib Require Import List String Ascii Bool Arith ZArith QArith Lia Lqa.
From Stdlib Require Import DecimalString.
Import ListNotations.
Set Warnings "-abstract-large-number".
Close Scope Q_scope.
Open Scope nat_scope.
Open Scope string_scope.

(** ** The JavaScript fragment the actions are written in *)

Module JS.

(** *** Exceptions and fallible computations

    Every exception of the program is an [Error] (or a subclass) that is
    only ever read through [error.message]. *)

Inductive exn : Type := Thrown (message : string).

Definition message (e : exn) : string :=
  match e with Thrown m => m end.

Inductive result (A : Type) : Type :=
| OK (a : A)
| Throw (e : exn).
Arguments OK {A} a.
Arguments Throw {A} e.

Definition bind {A B : Type} (r : result A) (k : A -> result B) : result B :=
  match r with
  | OK a => k a
  | Throw e => Throw e
  end.

(** [try { body } catch (error) { handler(error) }] *)
Definition try_catch {A : Type} (body : result A) (handler : exn -> result A)
  : result A :=
  match body with
  | OK a => OK a
  | Throw e => handler e
  end.

(** The [TypeError] of a property read on [undefined] or [null], in the
    words of Node.js. *)
Definition cannot_read (base prop : string) : exn :=
  Thrown ("Cannot read properties of " ++ base ++
          " (reading '" ++ prop ++ "')").

(** *** Strings

    A character stands for one UTF-16 code unit; the code units modelled
    are the 256 of Latin-1, on which [toLowerCase] moves [A-Z] and the
    accented capitals U+00C0..U+00DE (but not the sign U+00D7) by 32. *)

Definition lower_code (n : nat) : nat :=
  if ((65 <=? n) && (n <=? 90))%nat then n + 32
  else if ((192 <=? n) && (n <=? 222) && negb (n =? 215))%nat then n + 32
  else n.

Definition lower_char (c : ascii) : ascii :=
  ascii_of_nat (lower_code (nat_of_ascii c)).

Fixpoint toLowerCase (s : string) : string :=
  match s with
  | EmptyString => EmptyString
  | String c s' => String (lower_char c) (toLowerCase s')
  end.

(** [s.includes(t)]: [t] occurs in [s] as a contiguous run. *)
Fixpoint includes (s t : string) : bool :=
  String.prefix t s ||
  match s with
  | EmptyString => false
  | String _ s' => includes s' t
  end.

(** A template literal prints an absent value as [undefined]. *)
Definition tpl (o : option string) : string :=
  match o with
  | Some s => s
  | None => "undefined"
  end.

(** *** JSON values, with [undefined]

    An [Obj] lists the own enumerable properties of an object in the
    order [Object.entries] enumerates them, each key once.  Numbers are
    the rationals the JSON text denotes. *)

Unset Elimination Schemes.
Inductive value : Type :=
| Undefined
| Null
| Bool (b : bool)
| Num (q : Q)
| Str (s : string)
| Arr (elements : list value)
| Obj (properties : list (string * value)).
Set Elimination Schemes.

Definition of_string (o : option string) : value :=
  match o with
  | Some s => Str s
  | None => Undefined
  end.

Definition of_nat (n : nat) : value := Num (inject_Z (Z.of_nat n)).

(** [v == null] *)
Definition nullish (v : value) : bool :=
  match v with
  | Undefined | Null => true
  | _ => false
  end.

(** [typeof v === 'object'] for a [v] that is not [null]. *)
Definition is_object (v : value) : bool :=
  match v with
  | Arr _ | Obj _ => true
  | _ => false
  end.

Definition truthy (v : value) : bool :=
  match v with
  | Undefined | Null => false
  | Bool b => b
  | Num q => negb (Qeq_bool q 0)
  | Str s => negb (String.eqb s "")
  | Arr _ | Obj _ => true
  end.

Fixpoint lookup (k : string) (l : list (string * value)) : value :=
  match l with
  | [] => Undefined
  | (k', v) :: l' => if String.eqb k k' then v else lookup k l'
  end.

(** [v.k] for the property names this program reads ([data], [type],
    ...): own properties of an object, absent from arrays and
    primitives, a [TypeError] on [undefined] and [null]. *)
Definition prop (v : value) (k : string) : result value :=
  match v with
  | Undefined => Throw (cannot_read "undefined" k)
  | Null => Throw (cannot_read "null" k)
  | Obj l => OK (lookup k l)
  | _ => OK Undefined
  end.

(** The key of index [i] of an array, as [Object.entries] spells it. *)
Definition index_key (i : nat) : string :=
  NilEmpty.string_of_uint (Nat.to_uint i).

Fixpoint indexed (i : nat) (l : list value) : list (string * value) :=
  match l with
  | [] => []
  | v :: l' => (index_key i, v) :: indexed (S i) l'
  end.

Fixpoint indexed_chars (i : nat) (s : string) : list (string * value) :=
  match s with
  | EmptyString => []
  | String c s' => (index_key i, Str (String c "")) :: indexed_chars (S i) s'
  end.

(** [Object.entries(v)]: the properties of an object, the elements of an
    array and the code units of a string under their indices, nothing for
    a number or a boolean, a [TypeError] for [undefined] and [null]. *)
Definition entries (v : value) : result (list (string * value)) :=
  match v with
  | Undefined | Null => Throw (Thrown "Cannot convert undefined or null to object")
  | Bool _ | Num _ => OK []
  | Str s => OK (indexed_chars 0 s)
  | Arr l => OK (indexed 0 l)
  | Obj l => OK l
  end.

(** [Object.fromEntries] of a list that holds each key once and the
    index keys in ascending order before any other (as every list of
    [entries] does, filtered or not). *)
Definition fromEntries (l : list (string * value)) : value := Obj l.

(** [x > y] on numbers that may be absent: a comparison with [undefined]
    is false.  ([null] is compared as the number 0 and is not [None]
    here.) *)
Definition gt (x y : option Q) : bool :=
  match x, y with
  | Some a, Some b => negb (Qle_bool a b)
  | _, _ => false
  end.

End JS.

Module Notations.
Notation "x <- c ;; k" := (JS.bind c (fun x => k))
  (at level 61, c at next level, right associativity).
End Notations.

(** ** What the CRM answers and what the HTTP client is asked *)

Module Pipedrive.
Import JS.

(** The [id] of a record: a number for a deal, a string for a lead. *)
Inductive ident : Type :=
| IdNum (n : Z)
| IdStr (s : string).

Definition ident_string (i : option ident) : string :=
  match i with
  | Some (IdNum n) => NilEmpty.string_of_int (Z.to_int n)
  | Some (IdStr s) => s
  | None => "undefined"
  end.

Definition of_ident (i : option ident) : value :=
  match i with
  | Some (IdNum n) => Num (inject_Z n)
  | Some (IdStr s) => Str s
  | None => Undefined
  end.

(** [organization] and [person] of a search hit. *)
Record Named : Type := { name : option string }.

(** What the program reads off a [result_score], which is a number,
    [null] or absent: it reads it under [>] and [&&] only, where [null]
    counts as the number 0 ([5 > null] is true, [null > -1] is true,
    [null && x] is [null]) and an absent score as [undefined]. *)
Definition score_of (v : value) : option Q :=
  match v with
  | Num q => Some q
  | Null => Some (inject_Z 0)
  | _ => None
  end.

(** The fields of a search hit that the program reads.  [None] is a
    field that is absent and, for [title], [organization] and [person],
    which are read through [?.] and [||], also one that is [null].  A
    [result_score] is held as [score_of] gives it: [None] is an absent
    score only, and a score of [null] is [Some 0]. *)
Record Hit : Type := {
  id : option ident;
  title : option string;
  organization : option Named;
  person : option Named;
  result_score : option Q
}.

(** An element of [data.items]: its own fields and, where the response
    wraps the hit, the hit under [item]. *)
Record SearchItem : Type := {
  own : Hit;
  item : option Hit
}.

(** The body of a search response.  [{ data: { items: [] } }] has both
    levels; [{ data: [] }] has a [data] without [items]. *)
Record Data : Type := { items : option (list SearchItem) }.
Record SearchResults : Type := { data : option Data }.

(** The argument of [axios.get(url, { headers, params })]. *)
Record Request : Type := {
  url : string;
  headers : list (string * value);
  params : list (string * value)
}.

Record OutputObject : Type := { textResponse : string }.

(** [r.data?.items] *)
Definition data_items (r : SearchResults) : option (list SearchItem) :=
  match data r with
  | Some d => items d
  | None => None
  end.

(** [r.data?.items?.length] *)
Definition items_length (r : SearchResults) : option nat :=
  option_map (@List.length SearchItem) (data_items r).

(** [n > 0] and [n ?? 0] on a length that may be [undefined]. *)
Definition positive (n : option nat) : bool :=
  match n with
  | Some k => (0 <? k)%nat
  | None => false
  end.

Definition or_zero (n : option nat) : nat :=
  match n with
  | Some k => k
  | None => 0
  end.

End Pipedrive.

(** ** Flow A: [getPipedriveLeadOrDealInfo] *)

Module FlowA.
Import JS Pipedrive Notations.

(** The input object: the host hands over the parameters the action
    declares, the required ones always, and no other key. *)
Record Input : Type := {
  pipedriveCompanyDomain : string;
  pipedriveApiKey : string;
  instructions : option string;
  searchTerm : string
}.

(** [input[key]] *)
Definition input_get (input : Input) (key : string) : option string :=
  if String.eqb key "pipedriveCompanyDomain" then Some (pipedriveCompanyDomain input)
  else if String.eqb key "pipedriveApiKey" then Some (pipedriveApiKey input)
  else if String.eqb key "instructions" then instructions input
  else if String.eqb key "searchTerm" then Some (searchTerm input)
  else None.

(** *** The scorer *)

(** [field?.toLowerCase().includes(searchTermLower)] *)
Definition field_includes (field : option string) (searchTermLower : string)
  : bool :=
  match field with
  | Some s => includes (toLowerCase s) searchTermLower
  | None => false
  end.

(** [sub?.name] *)
Definition name_of (sub : option Named) : option string :=
  match sub with
  | Some n => name n
  | None => None
  end.

Definition score (currentItem : Hit) (searchTermLower : string) : Z :=
  ((if field_includes (title currentItem) searchTermLower then 3 else 0) +
   (if field_includes (name_of (organization currentItem)) searchTermLower
    then 2 else 0) +
   (if field_includes (name_of (person currentItem)) searchTermLower
    then 1 else 0))%Z.

(** The accumulator of the fold. *)
Record Best : Type := {
  best_item : option Hit;
  best_score : Z;
  best_resultScore : option Q
}.

Definition sentinel : Best :=
  {| best_item := None; best_score := (-1)%Z;
     best_resultScore := Some (inject_Z (-1)) |}.

(** [item.item || item] *)
Definition current_item (i : SearchItem) : Hit :=
  match item i with
  | Some h => h
  | None => own i
  end.

(** [score > best.score || (score === best.score && item.result_score >
    best.resultScore)] *)
Definition beats (score : Z) (resultScore : option Q) (best : Best) : bool :=
  (best_score best <? score)%Z ||
  ((score =? best_score best)%Z && gt resultScore (best_resultScore best)).

Definition step (searchTermLower : string) (best : Best) (i : SearchItem)
  : Best :=
  let currentItem := current_item i in
  let score := score currentItem searchTermLower in
  if beats score (result_score (own i)) best
  then {| best_item := Some currentItem; best_score := score;
          best_resultScore := result_score (own i) |}
  else best.

Definition findBestMatch (items : list SearchItem) (searchTerm : string)
  : option Hit :=
  match items with
  | [] => None
  | _ =>
      let searchTermLower := toLowerCase searchTerm in
      best_item (fold_left (step searchTermLower) items sentinel)
  end.

(** The two keys of an element of the list: the score computed here
    and the score the CRM gave. *)
Definition local_score (searchTerm : string) (i : SearchItem) : Z :=
  score (current_item i) (toLowerCase searchTerm).

Definition remote_score (i : SearchItem) : option Q := result_score (own i).

(** The accumulator after element [i] was selected. *)
Definition selected (searchTerm : string) (i : SearchItem) : Best :=
  {| best_item := Some (current_item i);
     best_score := local_score searchTerm i;
     best_resultScore := remote_score i |}.

(** Where the fold stands after a list that is not empty: at one of its
    elements, which no element beats, which beats every element before
    it where every element has a remote score, and which is the first
    element or beats it. *)
Definition stands_at (searchTerm : string) (items : list SearchItem)
  (k : nat) (w : SearchItem) : Prop :=
  nth_error items k = Some w /\
  (forall i, In i items ->
             (local_score searchTerm i <= local_score searchTerm w)%Z) /\
  (forall i, In i items ->
             local_score searchTerm i = local_score searchTerm w ->
             gt (remote_score i) (remote_score w) = false) /\
  ((forall i, In i items -> remote_score i <> None) ->
   forall j i, j < k -> nth_error items j = Some i ->
     (local_score searchTerm i < local_score searchTerm w)%Z \/
     (local_score searchTerm i = local_score searchTerm w /\
      gt (remote_score w) (remote_score i) = true)) /\
  (forall first, nth_error items 0 = Some first ->
     k = 0 \/
     (local_score searchTerm first < local_score searchTerm w)%Z \/
     (local_score searchTerm first = local_score searchTerm w /\
      gt (remote_score w) (remote_score first) = true)).

(** *** Null pruning *)

Definition kept (kv : string * value) : bool := negb (nullish (snd kv)).

(** [typeof v === 'object' ? removeNulls(v) : v], for a [v] that passed
    the filter. *)
Fixpoint prune (v : value) : value :=
  match v with
  | Obj l =>
      fromEntries
        ((fix props (l : list (string * value)) : list (string * value) :=
            match l with
            | [] => []
            | (k, x) :: l' =>
                if nullish x then props l' else (k, prune x) :: props l'
            end) l)
  | Arr l =>
      fromEntries
        ((fix elems (i : nat) (l : list value) : list (string * value) :=
            match l with
            | [] => []
            | x :: l' =>
                if nullish x then elems (S i) l'
                else (index_key i, prune x) :: elems (S i) l'
            end) 0 l)
  | _ => v
  end.

(** [es.filter(([_, v]) => v != null).map(([k, v]) => [k, typeof v ===
    'object' ? removeNulls(v) : v])] *)
Definition pruned_entries (es : list (string * value))
  : list (string * value) :=
  map (fun kv => (fst kv, prune (snd kv))) (filter kept es).

Definition removeNulls (obj : value) : result value :=
  es <- entries obj ;;
  OK (fromEntries (pruned_entries es)).

(** No property and no element, at any depth, is [null] or
    [undefined]. *)
Fixpoint null_free (v : value) : bool :=
  match v with
  | Obj l => forallb (fun kv => negb (nullish (snd kv)) && null_free (snd kv)) l
  | Arr l => forallb (fun x => negb (nullish x) && null_free x) l
  | _ => true
  end.

(** No array at any depth. *)
Fixpoint array_free (v : value) : bool :=
  match v with
  | Obj l => forallb (fun kv => array_free (snd kv)) l
  | Arr _ => false
  | _ => true
  end.

(** *** The final string *)

Definition MAX_LENGTH : nat := 90000.

Definition with_instructions (instructions : option string)
  (responseJson : string) : string :=
  match instructions with
  | Some i =>
      if String.eqb i "" then responseJson
      else "Instructions for the following content: " ++ i ++
           String "010" (String "010" responseJson)
  | None => responseJson
  end.

Definition truncate (responseJson : string) : string :=
  if (MAX_LENGTH <? String.length responseJson)%nat
  then substring 0 MAX_LENGTH responseJson
  else responseJson.

(** *** The remote calls

    The HTTP client is a function of the request: [Throw] is a rejected
    promise (transport error or non-2xx status), [OK] carries
    [response.data], typed for the search endpoints and a JSON value for
    the others.  [JSON_stringify v] is [JSON.stringify(v, null, 2)]. *)

Section Remote.

Variable axios_search : Request -> result SearchResults.
Variable axios_get : Request -> result value.
Variable JSON_stringify : value -> string.

Definition api_headers (apiKey : option string) : list (string * value) :=
  [("x-api-token", of_string apiKey); ("Accept", Str "application/json")].

Definition search_params (searchTerm : option string)
  : list (string * value) :=
  [("term", of_string searchTerm);
   ("fields", Str "title,custom_fields,notes");
   ("exact_match", Bool false);
   ("limit", Num (inject_Z 10))].

Definition lead_search_request (apiKey : option string)
  (companyDomain : string) (searchTerm : option string) : Request :=
  let baseUrl := "https://" ++ companyDomain ++ "/api/v1" in
  {| url := baseUrl ++ "/leads/search";
     headers := api_headers apiKey;
     params := search_params searchTerm |}.

Definition deal_search_request (apiKey : option string)
  (companyDomain : string) (searchTerm : option string) : Request :=
  let baseUrl := "https://" ++ companyDomain ++ "/api/v1" in
  {| url := baseUrl ++ "/deals/search";
     headers := api_headers apiKey;
     params := search_params searchTerm |}.

Definition searchPipedriveLead (apiKey : option string)
  (companyDomain : string) (searchTerm : option string)
  : result SearchResults :=
  try_catch
    (axios_search (lead_search_request apiKey companyDomain searchTerm))
    (fun _ => OK {| data := Some {| items := Some [] |} |}).

Definition searchPipedriveDeal (apiKey : option string)
  (companyDomain : string) (searchTerm : option string)
  : result SearchResults :=
  try_catch
    (axios_search (deal_search_request apiKey companyDomain searchTerm))
    (fun _ => OK {| data := Some {| items := None |} |}).

Definition detail_request (apiKey : option string) (url : string)
  (params : list (string * value)) : Request :=
  {| url := url; headers := api_headers apiKey; params := params |}.

(** [response.data.data || []] *)
Definition data_or_empty (body : value) : result value :=
  d <- prop body "data" ;;
  OK (if truthy d then d else Arr []).

Definition getLeadInfo (apiKey : option string) (companyDomain : string)
  (leadId : option ident) : result value :=
  let baseUrl := "https://" ++ companyDomain ++ "/api/v1" in
  let leadUrl := baseUrl ++ "/leads/" ++ ident_string leadId in
  try_catch
    (leadInfo <- axios_get (detail_request apiKey leadUrl []) ;;
     activities <-
       try_catch
         (activitiesResponse <-
            axios_get (detail_request apiKey (leadUrl ++ "/activities") []) ;;
          data_or_empty activitiesResponse)
         (fun _ => OK (Arr [])) ;;
     notes <-
       try_catch
         (notesResponse <-
            axios_get (detail_request apiKey (leadUrl ++ "/notes") []) ;;
          data_or_empty notesResponse)
         (fun _ => OK (Arr [])) ;;
     lead <- prop leadInfo "data" ;;
     OK (Obj [("lead", lead); ("activities", activities); ("notes", notes)]))
    (fun error =>
       Throw (Thrown ("Failed to fetch lead info: " ++ message error))).

Definition getDealInfo (apiKey : option string) (companyDomain : string)
  (dealId : option ident) : result value :=
  let baseUrl := "https://" ++ companyDomain ++ "/api/v1" in
  let url := baseUrl ++ "/deals/" ++ ident_string dealId in
  try_catch
    (dealInfo <-
       axios_get
         (detail_request apiKey url [("get_all_custom_fields", Bool true)]) ;;
     activities <-
       axios_get (detail_request apiKey (url ++ "/activities") []) ;;
     notes <- axios_get (detail_request apiKey (url ++ "/notes") []) ;;
     deal <- prop dealInfo "data" ;;
     activities_data <- prop activities "data" ;;
     notes_data <- prop notes "data" ;;
     OK (Obj [("deal", deal); ("activities", activities_data);
              ("notes", notes_data)]))
    (fun error =>
       Throw (Thrown ("Failed to fetch deal info: " ++ message error))).

(** *** The handler *)

(** [findBestMatch(items, searchTerm)] as the handler calls it, on a
    list that is not empty: an absent term stops at
    [searchTerm.toLowerCase()]. *)
Definition call_findBestMatch (items : list SearchItem)
  (searchTerm : option string) : result (option Hit) :=
  match searchTerm with
  | Some term => OK (findBestMatch items term)
  | None => Throw (cannot_read "undefined" "toLowerCase")
  end.

(** [r.data?.items?.length > 0 ? findBestMatch(r.data.items, searchTerm)
    : null] *)
Definition best_of (r : SearchResults) (searchTerm : option string)
  : result (option Hit) :=
  if positive (items_length r)
  then match data_items r with
       | Some items => call_findBestMatch items searchTerm
       | None => OK None
       end
  else OK None.

(** [r.data.items.slice(0, 3).map(item => ({ id: item.id, title:
    item.title }))] *)
Definition closest (r : SearchResults) : result value :=
  match data r with
  | None => Throw (cannot_read "undefined" "items")
  | Some d =>
      match items d with
      | None => Throw (cannot_read "undefined" "slice")
      | Some l =>
          OK (Arr (map (fun i => Obj [("id", of_ident (id (own i)));
                                      ("title", of_string (title (own i)))])
                       (firstn 3 l)))
      end
  end.

(** The body of the [try] down to [cleanedInfo]. *)
Definition cleaned_info (pipedriveApiKey : option string)
  (fullDomain : string) (searchTerm : option string) : result value :=
  leadResults <- searchPipedriveLead pipedriveApiKey fullDomain searchTerm ;;
  dealResults <- searchPipedriveDeal pipedriveApiKey fullDomain searchTerm ;;
  bestDeal <- best_of dealResults searchTerm ;;
  bestLead <- best_of leadResults searchTerm ;;
  let info :=
    [("searchTerm", of_string searchTerm);
     ("leadsFound", of_nat (or_zero (items_length leadResults)));
     ("dealsFound", of_nat (or_zero (items_length dealResults)))] in
  info' <-
    match bestDeal, bestLead with
    | Some deal, _ =>
        d <- getDealInfo pipedriveApiKey fullDomain (id deal) ;;
        OK (info ++
            [("bestMatch", Obj [("type", Str "deal"); ("data", d)])])%list
    | None, Some lead =>
        d <- getLeadInfo pipedriveApiKey fullDomain (id lead) ;;
        OK (info ++
            [("bestMatch", Obj [("type", Str "lead"); ("data", d)])])%list
    | None, None =>
        deals <- closest dealResults ;;
        leads <- closest leadResults ;;
        OK (info ++
            [("message", Str "No exact matches found.");
             ("closestMatches", Obj [("deals", deals); ("leads", leads)])])%list
    end ;;
  removeNulls (Obj info').

Definition full_domain (companyDomain : option string) : string :=
  tpl companyDomain ++ ".pipedrive.com".

Definition handler (input : Input) : result OutputObject :=
  let pipedriveApiKey := input_get input "pipedriveApiKey" in
  let companyDomain := input_get input "companyDomain" in
  let searchTerm := input_get input "searchTerm" in
  let instructions := input_get input "instructions" in
  let fullDomain := full_domain companyDomain in
  try_catch
    (cleanedInfo <- cleaned_info pipedriveApiKey fullDomain searchTerm ;;
     let responseJson := JSON_stringify cleanedInfo in
     let responseJson := with_instructions instructions responseJson in
     OK {| textResponse := truncate responseJson |})
    (fun error =>
       Throw (Thrown ("Failed to process request: " ++ message error))).

End Remote.

End FlowA.

(** ** Flow B: [getPipedriveLeadOrDealSummary] *)

Module FlowB.
Import JS Pipedrive Notations.

Record Input : Type := {
  pipedriveCompanyDomain : string;
  pipedriveApiKey : string;
  openaiApiKey : string;
  openaiModel : string;
  searchTerm : string
}.

Definition input_get (input : Input) (key : string) : option string :=
  if String.eqb key "pipedriveCompanyDomain" then Some (pipedriveCompanyDomain input)
  else if String.eqb key "pipedriveApiKey" then Some (pipedriveApiKey input)
  else if String.eqb key "openaiApiKey" then Some (openaiApiKey input)
  else if String.eqb key "openaiModel" then Some (openaiModel input)
  else if String.eqb key "searchTerm" then Some (searchTerm input)
  else None.

(** *** The scorer *)

(** [(field || '').toLowerCase().includes(searchTermLower)] *)
Definition field_match (field : option string) (searchTermLower : string)
  : bool :=
  includes
    (toLowerCase (match field with Some s => s | None => "" end))
    searchTermLower.

Definition name_of (sub : option Named) : option string :=
  match sub with
  | Some n => name n
  | None => None
  end.

(** The gate: [titleMatch || orgMatch || personMatch]. *)
Definition admitted (current : Hit) (searchTermLower : string) : bool :=
  field_match (title current) searchTermLower ||
  field_match (name_of (organization current)) searchTermLower ||
  field_match (name_of (person current)) searchTermLower.

(** The truth value of a score that may be absent: [undefined] and [0],
    which is also how a score of [null] is held, are false. *)
Definition nonzero (x : option Q) : bool :=
  match x with
  | Some q => negb (Qeq_bool q 0)
  | None => false
  end.

(** One round of the reduction; an element that is [undefined] stops it
    at [current.title]. *)
Definition step (searchTermLower : string) (best current : option Hit)
  : result (option Hit) :=
  match current with
  | None => Throw (cannot_read "undefined" "title")
  | Some c =>
      if admitted c searchTermLower then
        match best with
        | None => OK (Some c)
        | Some b =>
            if nonzero (result_score c) &&
               gt (result_score c) (result_score b)
            then OK (Some c)
            else OK best
        end
      else OK best
  end.

Fixpoint reduce (searchTermLower : string) (items : list (option Hit))
  (best : option Hit) : result (option Hit) :=
  match items with
  | [] => OK best
  | current :: rest =>
      best' <- step searchTermLower best current ;;
      reduce searchTermLower rest best'
  end.

Definition findBestMatch (items : list (option Hit)) (searchTerm : string)
  : result (option Hit) :=
  let searchTermLower := toLowerCase searchTerm in
  reduce searchTermLower items None.

(** What the summary is generated from: [{ type: 'lead', ...bestLead }]
    or [{ type: 'deal', ...bestDeal, activities }]. *)
Inductive SummaryData : Type :=
| LeadSummary (lead : Hit)
| DealSummary (deal : Hit) (activities : value).

(** *** The remote calls

    [completion key model data] is [response.choices[0]?.message?.content]
    of the chat completion asked for the prompt rendered from [data];
    [trim] is [String.prototype.trim]. *)

Section Remote.

Variable axios_search : Request -> result SearchResults.
Variable axios_get : Request -> result value.
Variable completion :
  option string -> option string -> SummaryData -> result (option string).
Variable trim : string -> string.

Definition api_headers (apiKey : option string) : list (string * value) :=
  [("x-api-token", of_string apiKey); ("Accept", Str "application/json")].

Definition search_request (collection : string) (apiKey : option string)
  (companyDomain : string) (searchTerm : option string) : Request :=
  let baseUrl := "https://" ++ companyDomain ++ "/api/v1" in
  {| url := baseUrl ++ "/" ++ collection ++ "/search";
     headers := api_headers apiKey;
     params := [("term", of_string searchTerm);
                ("fields", Str "title,custom_fields,notes");
                ("exact_match", Bool false);
                ("limit", Num (inject_Z 10))] |}.

Definition searchPipedriveLead (apiKey : option string)
  (companyDomain : string) (searchTerm : option string)
  : result SearchResults :=
  try_catch
    (axios_search (search_request "leads" apiKey companyDomain searchTerm))
    (fun _ => OK {| data := Some {| items := Some [] |} |}).

Definition searchPipedriveDeal (apiKey : option string)
  (companyDomain : string) (searchTerm : option string)
  : result SearchResults :=
  try_catch
    (axios_search (search_request "deals" apiKey companyDomain searchTerm))
    (fun _ => OK {| data := Some {| items := None |} |}).

Definition getActivitiesForDeal (apiKey : option string)
  (companyDomain : string) (dealId : option ident) : result value :=
  let baseUrl := "https://" ++ companyDomain ++ "/api/v1" in
  try_catch
    (response <-
       axios_get
         {| url := baseUrl ++ "/deals/" ++ ident_string dealId ++ "/activities";
            headers := api_headers apiKey;
            params := [("limit", Num (inject_Z 5));
                       ("sort", Str "due_date DESC")] |} ;;
     prop response "data")
    (fun _ => OK (Arr [])).

Definition generateSummary (apiKey model : option string)
  (data : SummaryData) : result string :=
  try_catch
    (content <- completion apiKey model data ;;
     match content with
     | Some c =>
         if String.eqb c "" then Throw (Thrown "No summary generated")
         else OK (trim c)
     | None => Throw (Thrown "No summary generated")
     end)
    (fun error =>
       Throw (Thrown ("Failed to generate summary: " ++ message error))).

(** *** The handler *)

(** [r.data && r.data.items ? findBestMatch(r.data.items.map(item =>
    item.item), searchTerm) : null] *)
Definition best_of (r : SearchResults) (searchTerm : option string)
  : result (option Hit) :=
  match data_items r with
  | Some items =>
      match searchTerm with
      | Some term => findBestMatch (map item items) term
      | None => Throw (cannot_read "undefined" "toLowerCase")
      end
  | None => OK None
  end.

(** [!bestDeal || bestLead.result_score > bestDeal.result_score] *)
Definition lead_preferred (bestLead : Hit) (bestDeal : option Hit) : bool :=
  match bestDeal with
  | Some deal => gt (result_score bestLead) (result_score deal)
  | None => true
  end.

Definition full_domain (pipedriveCompanyDomain : option string)
  : result string :=
  match pipedriveCompanyDomain with
  | Some d =>
      OK (if includes d ".pipedrive.com" then d else d ++ ".pipedrive.com")
  | None => Throw (cannot_read "undefined" "includes")
  end.

Definition handler (input : Input) : result OutputObject :=
  let pipedriveCompanyDomain := input_get input "pipedriveCompanyDomain" in
  let pipedriveApiKey := input_get input "pipedriveApiKey" in
  let openaiApiKey := input_get input "openaiApiKey" in
  let openaiModel := input_get input "openaiModel" in
  let searchTerm := input_get input "searchTerm" in
  fullDomain <- full_domain pipedriveCompanyDomain ;;
  try_catch
    (leadResults <- searchPipedriveLead pipedriveApiKey fullDomain searchTerm ;;
     dealResults <- searchPipedriveDeal pipedriveApiKey fullDomain searchTerm ;;
     bestLead <- best_of leadResults searchTerm ;;
     bestDeal <- best_of dealResults searchTerm ;;
     let otherwise :=
       match bestDeal with
       | Some deal =>
           activities <-
             getActivitiesForDeal pipedriveApiKey fullDomain (id deal) ;;
           OK (DealSummary deal activities)
       | None => Throw (Thrown "No matching leads or deals found")
       end in
     summaryData <-
       match bestLead with
       | Some lead =>
           if lead_preferred lead bestDeal then OK (LeadSummary lead)
           else otherwise
       | None => otherwise
       end ;;
     summary <- generateSummary openaiApiKey openaiModel summaryData ;;
     OK {| textResponse := summary |})
    (fun error =>
       Throw (Thrown ("Failed to process request: " ++ message error))).

End Remote.

End FlowB.

(** ** Sample data *)

Module Examples.
Import JS Pipedrive.

Definition hit (i : ident) (t : string) (org : option string)
  (rs : option Q) : Hit :=
  {| id := Some i; title := Some t;
     organization := option_map (fun n => {| name := Some n |}) org;
     person := None; result_score := rs |}.

Definition no_fields : Hit :=
  {| id := None; title := None; organization := None; person := None;
     result_score := None |}.

(** [{ result_score: rs, item: h }], the way the CRM wraps a hit. *)
Definition wrapped (rs : Q) (h : Hit) : SearchItem :=
  {| own := {| id := None; title := None; organization := None;
               person := None; result_score := Some rs |};
     item := Some h |}.

Definition acme_deal : SearchItem :=
  wrapped 0.8 (hit (IdNum 42) "Acme Corp Renewal" (Some "Acme Corp") None).

Definition acme_lead : SearchItem :=
  wrapped 0.3 (hit (IdStr "7f3a") "Acme Contact" None None).



(** Two hits that match nothing, the second with the higher remote
    score. *)
Definition zero_first : SearchItem :=
  wrapped 1 (hit (IdNum 3) "Initech" None None).

Definition zero_second : SearchItem :=
  wrapped 5 (hit (IdNum 4) "Umbrella" None None).

(** Unwrapped hits that pass the gate of flow B for the term [Acme]:
    one without a remote score, and three with the scores 5, -1 and 0. *)
Definition acme_unscored : Hit := hit (IdNum 5) "Acme One" None None.
Definition acme_five : Hit := hit (IdNum 6) "Acme Two" None (Some 5%Q).
Definition acme_minus_one : Hit := hit (IdNum 7) "Acme Three" None (Some (-1)%Q).
Definition acme_zero : Hit := hit (IdNum 8) "Acme Four" None (Some 0%Q).
Definition globex : Hit := hit (IdNum 9) "Globex" None (Some 9%Q).

Definition summary_input : FlowB.Input :=
  {| FlowB.pipedriveCompanyDomain := "acme";
     FlowB.pipedriveApiKey := "0123456789abcdef";
     FlowB.openaiApiKey := "sk-test";
     FlowB.openaiModel := "gpt-4o";
     FlowB.searchTerm := "Acme" |}.

(** A CRM whose two searches return one hit each, neither matching
    [Acme]. *)
Definition globex_search (r : Request) : result SearchResults :=
  OK {| data := Some {| items := Some [wrapped 0.9 globex] |} |}.

Definition echo_completion (k m : option string) (d : FlowB.SummaryData)
  : result (option string) :=
  OK (Some "summary").

(** A CRM that holds one deal and one lead and answers on any host. *)
Definition acme_search (r : Request) : result SearchResults :=
  if includes (url r) "/deals/search"
  then OK {| data := Some {| items := Some [acme_deal] |} |}
  else if includes (url r) "/leads/search"
  then OK {| data := Some {| items := Some [acme_lead] |} |}
  else Throw (Thrown "Request failed with status code 404").

Definition acme_get (r : Request) : result value :=
  if includes (url r) "/activities"
  then OK (Obj [("success", Bool true);
                ("data", Arr [Obj [("id", Num 7); ("subject", Str "Call");
                                   ("note", Null)]])])
  else if includes (url r) "/notes"
  then OK (Obj [("success", Bool true); ("data", Null)])
  else OK (Obj [("success", Bool true);
                ("data", Obj [("id", Num 42);
                              ("title", Str "Acme Corp Renewal");
                              ("value", Null)])]).

(** The same CRM, reachable under its own host name only. *)
Definition acme_host_search (r : Request) : result SearchResults :=
  if String.prefix "https://acme.pipedrive.com/" (url r)
  then acme_search r
  else Throw (Thrown "getaddrinfo ENOTFOUND").

Definition acme_host_get (r : Request) : result value :=
  if String.prefix "https://acme.pipedrive.com/" (url r)
  then acme_get r
  else Throw (Thrown "getaddrinfo ENOTFOUND").

(** A CRM whose search endpoints fail, and one that finds nothing. *)
Definition failing_search (r : Request) : result SearchResults :=
  Throw (Thrown "Request failed with status code 500").

Definition empty_search (r : Request) : result SearchResults :=
  OK {| data := Some {| items := Some [] |} |}.

(** A CRM whose attachment endpoints fail. *)
Definition no_attachments_get (r : Request) : result value :=
  if includes (url r) "/activities" || includes (url r) "/notes"
  then Throw (Thrown "Request failed with status code 500")
  else acme_get r.

Definition acme_input : FlowA.Input :=
  {| FlowA.pipedriveCompanyDomain := "acme";
     FlowA.pipedriveApiKey := "0123456789abcdef";
     FlowA.instructions := None;
     FlowA.searchTerm := "Acme Corp" |}.

Fixpoint replicate (n : nat) (c : ascii) : string :=
  match n with
  | O => EmptyString
  | S n' => String c (replicate n' c)
  end.

(** Two stand-ins for the serializer: a short text and one of 90,001
    characters. *)
Definition short_text (v : value) : string := "{}".
Definition long_text (v : value) : string := replicate 90001 "x".

(** Instructions of 89,960 characters, and an input that carries
    them. *)
Definition long_instructions : string := replicate 89960 "i".

Definition instructed_input : FlowA.Input :=
  {| FlowA.pipedriveCompanyDomain := "acme";
     FlowA.pipedriveApiKey := "0123456789abcdef";
     FlowA.instructions := Some long_instructions;
     FlowA.searchTerm := "Acme Corp" |}.

(** A CRM whose deal search fails and whose lead search finds the lead,
    and one whose lead search fails and whose deal search finds the
    deal. *)
Definition lead_only_search (r : Request) : result SearchResults :=
  if includes (url r) "/leads/search"
  then OK {| data := Some {| items := Some [acme_lead] |} |}
  else Throw (Thrown "Request failed with status code 500").

Definition deal_only_search (r : Request) : result SearchResults :=
  if includes (url r) "/deals/search"
  then OK {| data := Some {| items := Some [acme_deal] |} |}
  else Throw (Thrown "Request failed with status code 500").

(** A hit that is not wrapped: its fields are the element's own. *)
Definition flat (h : Hit) : SearchItem := {| own := h; item := None |}.

Definition flat_search (r : Request) : result SearchResults :=
  OK {| data := Some {| items := Some [flat acme_five] |} |}.

(** A CRM that holds two hits matching [Acme], the lead with the higher
    remote score on the hit itself. *)
Definition scored_search (r : Request) : result SearchResults :=
  if includes (url r) "/leads/search"
  then OK {| data := Some {| items := Some [wrapped 0.9 acme_five] |} |}
  else OK {| data := Some {| items := Some [wrapped 0.9 acme_minus_one] |} |}.

Definition unscored_search (r : Request) : result SearchResults :=
  if includes (url r) "/leads/search"
  then OK {| data := Some {| items := Some [wrapped 0.9 acme_five] |} |}
  else OK {| data := Some {| items := Some [wrapped 0.9 acme_unscored] |} |}.

(** Completions without content, and a completion call that fails. *)
Definition empty_completion (k m : option string) (d : FlowB.SummaryData)
  : result (option string) :=
  OK (Some "").

Definition failing_completion (k m : option string) (d : FlowB.SummaryData)
  : result (option string) :=
  Throw (Thrown "401 Incorrect API key provided").

(** A completion that names the kind of record it was asked about. *)
Definition kind_completion (k m : option string) (d : FlowB.SummaryData)
  : result (option string) :=
  OK (Some match d with
           | FlowB.LeadSummary _ => " lead "
           | FlowB.DealSummary _ _ => " deal "
           end).

(** A stand-in for [trim] that drops the spaces at the front. *)
Fixpoint trim_front (s : string) : string :=
  match s with
  | String " " s' => trim_front s'
  | _ => s
  end.

(** A CRM that holds one deal matching [Acme] and no lead. *)
Definition deal_search (r : Request) : result SearchResults :=
  if includes (url r) "/deals/search"
  then OK {| data := Some {| items := Some [wrapped 0.9 acme_five] |} |}
  else OK {| data := Some {| items := Some [] |} |}.

(** A completion that tells whether the activities it was given are an
    empty list. *)
Definition activities_completion (k m : option string)
  (d : FlowB.SummaryData) : result (option string) :=
  OK (Some match d with
           | FlowB.DealSummary _ (Arr []) => "deal without activities"
           | _ => "other"
           end).

Definition failing_get (r : Request) : result value :=
  Throw (Thrown "Request failed with status code 500").

(** Two hits of local score 3 for the term [Acme]: one by its title
    alone, one by its organization and its person. *)
Definition title_only : SearchItem :=
  wrapped 0.4 (hit (IdNum 10) "Acme renewal" (Some "Globex") None).

Definition title_only_high : SearchItem :=
  wrapped 0.7 (hit (IdNum 16) "Acme upsell" (Some "Globex") None).

Definition org_and_person : SearchItem :=
  wrapped 0.6
    {| id := Some (IdNum 11); title := Some "Renewal";
       organization := Some {| name := Some "Acme Corp" |};
       person := Some {| name := Some "Bob of Acme" |};
       result_score := None |}.

(** An object with a [null], an [undefined] and a nested array. *)
Definition sparse_object : list (string * value) :=
  [("id", Num 1); ("owner", Null); ("tags", Arr [Str "a"; Null]);
   ("note", Undefined)].

(** The CRM of [deal_only_search] with a lead search that answers, and
    finds nothing. *)
Definition deal_and_no_lead_search (r : Request) : result SearchResults :=
  if includes (url r) "/deals/search"
  then OK {| data := Some {| items := Some [acme_deal] |} |}
  else OK {| data := Some {| items := Some [] |} |}.

(** A wrapper whose [result_score] is [null], one without
    [result_score], and a hit that matches [Acme] with a [result_score]
    of [null]. *)
Definition wrapped_null (h : Hit) : SearchItem :=
  {| own := {| id := None; title := None; organization := None;
               person := None; result_score := score_of Null |};
     item := Some h |}.

Definition wrapped_unscored (h : Hit) : SearchItem :=
  {| own := {| id := None; title := None; organization := None;
               person := None; result_score := score_of Undefined |};
     item := Some h |}.

Definition acme_null : Hit :=
  hit (IdNum 15) "Acme Null" None (score_of Null).

(** A CRM whose best lead has the score 5 and whose best deal has a
    score of [null]. *)
Definition null_deal_search (r : Request) : result SearchResults :=
  if includes (url r) "/leads/search"
  then OK {| data := Some {| items := Some [wrapped 0.9 acme_five] |} |}
  else OK {| data := Some {| items := Some [wrapped 0.9 acme_null] |} |}.

(** A CRM that answers every detail request with two notes, the first
    of them [null], under [data]. *)
Definition listing_get (r : Request) : result value :=
  if includes (url r) "/activities"
  then OK (Obj [("data", Arr [Obj [("id", Num 7); ("note", Null)]])])
  else if includes (url r) "/notes"
  then OK (Obj [("data", Arr [Null; Obj [("content", Str "Call back")]])])
  else OK (Obj [("data", Obj [("id", Num 42); ("labels", Arr [Str "hot"])])]).

(** Hits as the CRM unwraps them: the remote score stays on the
    wrapper. *)
Definition unscored_hits : list Hit :=
  [hit (IdNum 12) "Globex" None None;
   hit (IdNum 13) "Acme East" None None;
   hit (IdNum 14) "Acme West" None None].

End Examples.

(** * Properties *)

Import JS Pipedrive Notations.

(** ** Induction on JSON values *)

Section ValueInduction.

Variable P : value -> Prop.
Hypothesis P_undefined : P Undefined.
Hypothesis P_null : P Null.
Hypothesis P_bool : forall b, P (Bool b).
Hypothesis P_num : forall q, P (Num q).
Hypothesis P_str : forall s, P (Str s).
Hypothesis P_arr : forall l, Forall P l -> P (Arr l).
Hypothesis P_obj : forall l, Forall (fun kv => P (snd kv)) l -> P (Obj l).

Lemma value_nested_ind : forall v, P v.
Proof.
  fix IH 1; intros [ | |b|q|s|l|l].
  - exact P_undefined.
  - exact P_null.
  - exact (P_bool b).
  - exact (P_num q).
  - exact (P_str s).
  - apply P_arr; induction l as [|x l IHl]; constructor;
      [apply IH|exact IHl].
  - apply P_obj; induction l as [|kv l IHl]; constructor;
      [apply IH|exact IHl].
Qed.

End ValueInduction.

(** ** Fallible computations *)

Lemma bind_OK {A B : Type} (r : result A) (k : A -> result B) (b : B) :
  bind r k = OK b -> exists a, r = OK a /\ k a = OK b.
Proof.
  destruct r as [a|e]; simpl; intro H; [exists a; auto | discriminate].
Qed.

Lemma try_catch_OK {A : Type} (a : A) (h : exn -> result A) :
  try_catch (OK a) h = OK a.
Proof. reflexivity. Qed.

Lemma try_catch_Throw {A : Type} (e : exn) (h : exn -> result A) :
  try_catch (Throw e) h = h e.
Proof. reflexivity. Qed.

(** ** Null pruning *)

Lemma prune_Obj (l : list (string * value)) :
  FlowA.prune (Obj l) =
  Obj (map (fun kv => (fst kv, FlowA.prune (snd kv))) (filter FlowA.kept l)).
Proof.
  cbn [FlowA.prune]; unfold fromEntries; f_equal.
  induction l as [|[k x] l IH]; [reflexivity|].
  cbn [filter]; unfold FlowA.kept at 1; cbn [snd]; rewrite IH.
  destruct (nullish x); reflexivity.
Qed.

Lemma prune_Arr (l : list value) :
  FlowA.prune (Arr l) =
  Obj (map (fun kv => (fst kv, FlowA.prune (snd kv)))
         (filter FlowA.kept (indexed 0 l))).
Proof.
  cbn [FlowA.prune]; unfold fromEntries; f_equal.
  generalize 0.
  induction l as [|x l IH]; intro i; [reflexivity|].
  cbn [indexed filter]; unfold FlowA.kept at 1; cbn [snd]; rewrite IH.
  destruct (nullish x); reflexivity.
Qed.

(** [prune] is the conditional of the source: the recursive call on
    objects and arrays, the value itself otherwise. *)
Lemma removeNulls_object (v : value) :
  is_object v = true -> FlowA.removeNulls v = OK (FlowA.prune v).
Proof.
  destruct v; try discriminate; intros _.
  - rewrite prune_Arr; reflexivity.
  - rewrite prune_Obj; reflexivity.
Qed.

Lemma prune_primitive (v : value) :
  is_object v = false -> FlowA.prune v = v.
Proof. destruct v; try discriminate; reflexivity. Qed.

Lemma nullish_prune (v : value) : nullish (FlowA.prune v) = nullish v.
Proof. destruct v; reflexivity. Qed.

Lemma pruned_entries_In (es : list (string * value)) (kv : string * value) :
  In kv (FlowA.pruned_entries es) ->
  exists kv', In kv' es /\ nullish (snd kv') = false /\
              kv = (fst kv', FlowA.prune (snd kv')).
Proof.
  unfold FlowA.pruned_entries; intro H.
  apply in_map_iff in H; destruct H as [kv' [E H]].
  apply filter_In in H; destruct H as [H K].
  exists kv'; repeat split; auto.
  unfold FlowA.kept in K; destruct (nullish (snd kv')); [discriminate|reflexivity].
Qed.

Lemma pruned_entries_keeps_all (es : list (string * value)) :
  filter FlowA.kept (FlowA.pruned_entries es) = FlowA.pruned_entries es.
Proof.
  apply forallb_filter_id, forallb_forall; intros kv H.
  apply pruned_entries_In in H; destruct H as [kv' [_ [N ->]]].
  unfold FlowA.kept; cbn [snd]; rewrite nullish_prune, N; reflexivity.
Qed.

Lemma pruned_entries_idem (es : list (string * value)) :
  Forall (fun kv => FlowA.prune (FlowA.prune (snd kv)) = FlowA.prune (snd kv)) es ->
  FlowA.pruned_entries (FlowA.pruned_entries es) = FlowA.pruned_entries es.
Proof.
  intro IH.
  unfold FlowA.pruned_entries at 1; rewrite pruned_entries_keeps_all.
  unfold FlowA.pruned_entries; rewrite map_map; apply map_ext_in.
  intros kv H; cbn [fst snd]; f_equal.
  apply filter_In in H; destruct H as [H _].
  rewrite Forall_forall in IH; exact (IH kv H).
Qed.

Lemma indexed_In (l : list value) (i : nat) (kv : string * value) :
  In kv (indexed i l) -> In (snd kv) l.
Proof.
  revert i; induction l as [|x l IH]; intros i H; [contradiction|].
  cbn [indexed] in H; destruct H as [<- | H]; [left; reflexivity|].
  right; exact (IH _ H).
Qed.

Lemma indexed_chars_In (s : string) (i : nat) (kv : string * value) :
  In kv (indexed_chars i s) -> exists c, snd kv = Str (String c "").
Proof.
  revert i; induction s as [|c s IH]; intros i H; [contradiction|].
  cbn [indexed_chars] in H; destruct H as [<- | H]; [exists c; reflexivity|].
  exact (IH _ H).
Qed.

Lemma prune_idempotent (v : value) :
  FlowA.prune (FlowA.prune v) = FlowA.prune v.
Proof.
  induction v using value_nested_ind; try reflexivity.
  - rewrite prune_Arr; fold (FlowA.pruned_entries (indexed 0 l)).
    rewrite prune_Obj; fold (FlowA.pruned_entries (FlowA.pruned_entries (indexed 0 l))).
    rewrite pruned_entries_idem; [reflexivity|].
    apply Forall_forall; intros kv K.
    rewrite Forall_forall in H; exact (H _ (indexed_In _ _ _ K)).
  - rewrite prune_Obj; fold (FlowA.pruned_entries l).
    rewrite prune_Obj; fold (FlowA.pruned_entries (FlowA.pruned_entries l)).
    rewrite pruned_entries_idem; [reflexivity|exact H].
Qed.

Lemma null_free_pruned_entries (es : list (string * value)) :
  Forall (fun kv => FlowA.null_free (FlowA.prune (snd kv)) = true) es ->
  FlowA.null_free (Obj (FlowA.pruned_entries es)) = true.
Proof.
  intro IH; cbn [FlowA.null_free]; apply forallb_forall; intros kv H.
  apply pruned_entries_In in H; destruct H as [kv' [K [N ->]]]; cbn [snd].
  rewrite nullish_prune, N; cbn [negb andb].
  rewrite Forall_forall in IH; exact (IH _ K).
Qed.

Lemma null_free_prune (v : value) : FlowA.null_free (FlowA.prune v) = true.
Proof.
  induction v using value_nested_ind; try reflexivity.
  - rewrite prune_Arr; apply null_free_pruned_entries.
    apply Forall_forall; intros kv K.
    rewrite Forall_forall in H; exact (H _ (indexed_In _ _ _ K)).
  - rewrite prune_Obj; apply null_free_pruned_entries; exact H.
Qed.

Lemma array_free_pruned_entries (es : list (string * value)) :
  Forall (fun kv => FlowA.array_free (FlowA.prune (snd kv)) = true) es ->
  FlowA.array_free (Obj (FlowA.pruned_entries es)) = true.
Proof.
  intro IH; cbn [FlowA.array_free]; apply forallb_forall; intros kv H.
  apply pruned_entries_In in H; destruct H as [kv' [K [N ->]]]; cbn [snd].
  rewrite Forall_forall in IH; exact (IH _ K).
Qed.

Lemma array_free_prune (v : value) : FlowA.array_free (FlowA.prune v) = true.
Proof.
  induction v using value_nested_ind; try reflexivity.
  - rewrite prune_Arr; apply array_free_pruned_entries.
    apply Forall_forall; intros kv K.
    rewrite Forall_forall in H; exact (H _ (indexed_In _ _ _ K)).
  - rewrite prune_Obj; apply array_free_pruned_entries; exact H.
Qed.

(** What [removeNulls] returns, whatever it is given. *)
Lemma removeNulls_entries (x : value) (es : list (string * value)) :
  entries x = OK es -> FlowA.removeNulls x = OK (Obj (FlowA.pruned_entries es)).
Proof. unfold FlowA.removeNulls; intros ->; reflexivity. Qed.

Lemma entries_defined (x : value) :
  nullish x = false -> exists es, entries x = OK es.
Proof. destruct x; try discriminate; intros _; eexists; reflexivity. Qed.

Lemma entries_throws (x : value) (e : exn) :
  entries x = Throw e -> nullish x = true.
Proof. destruct x; try discriminate; reflexivity. Qed.

(** C8: [removeNulls] is idempotent, and no property of its result, at
    any depth, is [null] or [undefined].  It returns for every input but
    [null] and [undefined], on which [Object.entries] throws (the
    handler applies it to an object). *)
Theorem removeNulls_idempotent (x : value) :
  bind (FlowA.removeNulls x) FlowA.removeNulls = FlowA.removeNulls x /\
  match FlowA.removeNulls x with
  | OK y => FlowA.removeNulls y = OK y /\ FlowA.null_free y = true
  | Throw _ => nullish x = true
  end.
Proof.
  destruct (entries x) as [es|e] eqn:E.
  - rewrite (removeNulls_entries x es E); cbn [bind].
    assert (I : FlowA.removeNulls (Obj (FlowA.pruned_entries es)) =
                OK (Obj (FlowA.pruned_entries es))).
    { rewrite (removeNulls_entries (Obj (FlowA.pruned_entries es))
               (FlowA.pruned_entries es) eq_refl).
      rewrite pruned_entries_idem; [reflexivity|].
      apply Forall_forall; intros kv _; apply prune_idempotent. }
    split; [exact I|split; [exact I|]].
    apply null_free_pruned_entries, Forall_forall; intros kv _.
    apply null_free_prune.
  - unfold FlowA.removeNulls; rewrite E; cbn [bind].
    split; [reflexivity|exact (entries_throws x e E)].
Qed.

(** ** Strings *)



(** ** Comparing scores that may be absent *)

Lemma gt_Some (x y : option Q) :
  gt x y = true -> exists a b, x = Some a /\ y = Some b /\ (b < a)%Q.
Proof.
  destruct x as [a|], y as [b|]; try discriminate; cbn [gt]; intro H.
  exists a, b; repeat split.
  apply Qnot_le_lt; intro L; apply Qle_bool_iff in L.
  rewrite L in H; discriminate.
Qed.

Lemma gt_false (a b : Q) : gt (Some a) (Some b) = false -> (a <= b)%Q.
Proof.
  cbn [gt]; intro H; apply Qle_bool_iff.
  destruct (Qle_bool a b); [reflexivity|discriminate].
Qed.

Lemma gt_lt (a b : Q) : (b < a)%Q -> gt (Some a) (Some b) = true.
Proof.
  intro H; cbn [gt]; destruct (Qle_bool a b) eqn:E; [|reflexivity].
  apply Qle_bool_iff in E; lra.
Qed.

Lemma gt_irrefl (x : option Q) : gt x x = false.
Proof.
  destruct x as [a|]; [|reflexivity].
  cbn [gt]; replace (Qle_bool a a) with true; [reflexivity|].
  symmetry; apply Qle_bool_iff; lra.
Qed.

Lemma gt_asym (x y : option Q) : gt x y = true -> gt y x = false.
Proof.
  intro H; apply gt_Some in H; destruct H as [a [b [-> [-> L]]]].
  cbn [gt]; replace (Qle_bool b a) with true; [reflexivity|].
  symmetry; apply Qle_bool_iff; lra.
Qed.

Lemma gt_trans (x y z : option Q) :
  gt x y = true -> gt y z = true -> gt x z = true.
Proof.
  intros H K; apply gt_Some in H; destruct H as [a [b [-> [-> L]]]].
  apply gt_Some in K; destruct K as [b' [c [E [-> M]]]].
  injection E as <-; apply gt_lt; lra.
Qed.

(** A score that is not above [w] is not above what is above [w]. *)
Lemma gt_above (i x w : option Q) :
  gt x w = true -> gt i w = false -> gt i x = false.
Proof.
  intros H K; apply gt_Some in H; destruct H as [a [b [-> [-> L]]]].
  destruct i as [c|]; [|reflexivity].
  apply gt_false in K; cbn [gt].
  replace (Qle_bool c a) with true; [reflexivity|].
  symmetry; apply Qle_bool_iff; lra.
Qed.

(** ** The scorer of flow A *)

Section FlowA_scorer.

Variable searchTerm : string.

Local Abbreviation local := (FlowA.local_score searchTerm).
Local Abbreviation remote := FlowA.remote_score.
Local Abbreviation step := (FlowA.step (toLowerCase searchTerm)).
Local Abbreviation stands_at := (FlowA.stands_at searchTerm).

Lemma score_range (h : Hit) (l : string) :
  (0 <= FlowA.score h l <= 6)%Z.
Proof.
  unfold FlowA.score.
  destruct (FlowA.field_includes (title h) l),
    (FlowA.field_includes (FlowA.name_of (organization h)) l),
    (FlowA.field_includes (FlowA.name_of (person h)) l); lia.
Qed.

Lemma local_nonneg (i : SearchItem) : (0 <= local i)%Z.
Proof. apply score_range. Qed.

Lemma step_selected (best : FlowA.Best) (i : SearchItem) :
  step best i =
  if FlowA.beats (local i) (remote i) best
  then FlowA.selected searchTerm i else best.
Proof. reflexivity. Qed.

(** The first element always replaces the sentinel. *)
Lemma step_sentinel (i : SearchItem) :
  step FlowA.sentinel i = FlowA.selected searchTerm i.
Proof.
  rewrite step_selected; unfold FlowA.beats; cbn [FlowA.sentinel FlowA.best_score].
  pose proof (local_nonneg i) as H.
  destruct (Z.ltb_spec (-1) (local i)) as [_|K]; [reflexivity|lia].
Qed.

Lemma beats_selected (x w : SearchItem) :
  FlowA.beats (local x) (remote x) (FlowA.selected searchTerm w) = true ->
  (local w < local x)%Z \/
  (local x = local w /\ gt (remote x) (remote w) = true).
Proof.
  unfold FlowA.beats; cbn [FlowA.selected FlowA.best_score FlowA.best_resultScore].
  fold (local w) (remote w); intro H.
  apply orb_true_iff in H; destruct H as [H|H].
  - left; apply Z.ltb_lt; exact H.
  - apply andb_true_iff in H; destruct H as [E G].
    right; split; [apply Z.eqb_eq; exact E|exact G].
Qed.

Lemma not_beats_selected (x w : SearchItem) :
  FlowA.beats (local x) (remote x) (FlowA.selected searchTerm w) = false ->
  (local x <= local w)%Z /\
  (local x = local w -> gt (remote x) (remote w) = false).
Proof.
  unfold FlowA.beats; cbn [FlowA.selected FlowA.best_score FlowA.best_resultScore].
  fold (local w) (remote w); intro H.
  apply orb_false_iff in H; destruct H as [L H].
  apply Z.ltb_ge in L; split; [exact L|].
  intro E; apply andb_false_iff in H; destruct H as [H|H]; [|exact H].
  apply Z.eqb_neq in H; contradiction.
Qed.

Lemma stands_at_first (x : SearchItem) : stands_at [x] 0 x.
Proof.
  repeat split.
  - intros i [<-|[]]; lia.
  - intros i [<-|[]] _; apply gt_irrefl.
  - intros _ j i H; lia.
  - intros first _; left; reflexivity.
Qed.

Lemma stands_at_replaced (items : list SearchItem) (k : nat)
  (w x : SearchItem) :
  stands_at items k w ->
  FlowA.beats (local x) (remote x) (FlowA.selected searchTerm w) = true ->
  stands_at (items ++ [x]) (List.length items) x.
Proof.
  intros [N [P1 [P2 [_ P4]]]] B; apply beats_selected in B.
  assert (Q1 : forall i, In i items -> (local i <= local x)%Z).
  { intros i H; specialize (P1 i H); destruct B as [B|[B _]]; lia. }
  assert (Q2 : forall i, In i items -> local i = local x ->
                         gt (remote i) (remote x) = false).
  { intros i H E; specialize (P1 i H).
    destruct B as [B|[B G]]; [lia|].
    apply (gt_above _ _ (remote w) G), P2; [exact H|lia]. }
  repeat split.
  - rewrite nth_error_app2, Nat.sub_diag by lia; reflexivity.
  - intros i H; apply in_app_or in H; destruct H as [H|[<-|[]]];
      [exact (Q1 i H)|lia].
  - intros i H E; apply in_app_or in H; destruct H as [H|[<-|[]]];
      [exact (Q2 i H E)|apply gt_irrefl].
  - intros D j i J Nj.
    rewrite nth_error_app1 in Nj by exact J.
    assert (H : In i items) by exact (nth_error_In _ _ Nj).
    destruct (Z.eq_dec (local i) (local x)) as [E|E];
      [right; split; [exact E|] | left; specialize (Q1 i H); lia].
    specialize (P1 i H); destruct B as [B|[B G]]; [lia|].
    apply gt_Some in G; destruct G as [a [b [Ea [Eb L]]]].
    destruct (remote i) as [c|] eqn:Ei;
      [|exfalso; apply (D i); [apply in_or_app; left; exact H|exact Ei]].
    assert (K : gt (Some c) (remote w) = false).
    { rewrite <- Ei; apply P2; [exact H|lia]. }
    rewrite Eb in K; apply gt_false in K.
    rewrite Ea; apply gt_lt; lra.
  - intros first F; right.
    assert (Z : k < List.length items).
    { apply nth_error_Some; rewrite N; discriminate. }
    rewrite nth_error_app1 in F by lia.
    destruct (P4 first F) as [->|S].
    + rewrite F in N; injection N as ->.
      destruct B as [B|[B G]]; [left; exact B|right; split; [lia|exact G]].
    + destruct S as [S|[S G']], B as [B|[B G]].
      * left; lia.
      * left; lia.
      * left; lia.
      * right; split; [lia|exact (gt_trans _ _ _ G G')].
Qed.

Lemma stands_at_retained (items : list SearchItem) (k : nat)
  (w x : SearchItem) :
  stands_at items k w ->
  FlowA.beats (local x) (remote x) (FlowA.selected searchTerm w) = false ->
  stands_at (items ++ [x]) k w.
Proof.
  intros [N [P1 [P2 [P3 P4]]]] B; apply not_beats_selected in B.
  destruct B as [B1 B2].
  assert (K : k < List.length items).
  { apply nth_error_Some; rewrite N; discriminate. }
  repeat split.
  - rewrite nth_error_app1 by exact K; exact N.
  - intros i H; apply in_app_or in H; destruct H as [H|[<-|[]]];
      [exact (P1 i H)|exact B1].
  - intros i H E; apply in_app_or in H; destruct H as [H|[<-|[]]];
      [exact (P2 i H E)|exact (B2 E)].
  - intros D j i J Nj.
    rewrite nth_error_app1 in Nj by lia.
    apply (P3 (fun i H => D i (in_or_app _ _ _ (or_introl H))) j i J Nj).
  - intros first F; rewrite nth_error_app1 in F by lia.
    exact (P4 first F).
Qed.

Lemma fold_stands_at (items : list SearchItem) :
  items <> [] ->
  exists k w,
    fold_left step items FlowA.sentinel = FlowA.selected searchTerm w /\
    stands_at items k w.
Proof.
  induction items as [|x items IH] using rev_ind; [congruence|intros _].
  rewrite fold_left_app; cbn [fold_left].
  destruct items as [|y items].
  - exists 0, x; split; [apply step_sentinel|apply stands_at_first].
  - destruct IH as [k [w [E S]]]; [discriminate|].
    rewrite E, step_selected.
    destruct (FlowA.beats _ _ _) eqn:B.
    + exists (List.length (y :: items)), x; split; [reflexivity|].
      exact (stands_at_replaced _ _ _ _ S B).
    + exists k, w; split; [reflexivity|].
      exact (stands_at_retained _ _ _ _ S B).
Qed.

End FlowA_scorer.

Lemma findBestMatch_fold (items : list SearchItem) (term : string) :
  items <> [] ->
  FlowA.findBestMatch items term =
  FlowA.best_item
    (fold_left (FlowA.step (toLowerCase term)) items FlowA.sentinel).
Proof. destruct items; [congruence|reflexivity]. Qed.




(** C2, as amended: on a list that is not empty the scorer of flow A
    returns an element of the list, never [null]; no element has a
    higher local score; no element of the same local score has a higher
    remote score; and, where every element carries a remote score, each
    element before it is strictly below it in local score or, at the
    same local score, in remote score, so an earlier element is retained
    on a full tie.  It is the first element, or above the first element
    in local score or, at the same local score, in remote score: a list
    whose elements all score 0 yields its first element unless a later
    one has a higher remote score.  A remote score of [null] counts as
    0 in these comparisons, so a later element of the same local score
    and a positive remote score replaces it; an element without remote
    score compares false and is not replaced at the same local score. *)
Theorem findBestMatch_cascade :
  (forall (term : string) (items : list SearchItem),
     items <> [] ->
     exists k w,
       nth_error items k = Some w /\
       FlowA.findBestMatch items term = Some (FlowA.current_item w) /\
       (forall i, In i items ->
          (FlowA.local_score term i <= FlowA.local_score term w)%Z) /\
       (forall i, In i items ->
          FlowA.local_score term i = FlowA.local_score term w ->
          gt (FlowA.remote_score i) (FlowA.remote_score w) = false) /\
       ((forall i, In i items -> FlowA.remote_score i <> None) ->
        forall j i, j < k -> nth_error items j = Some i ->
          (FlowA.local_score term i < FlowA.local_score term w)%Z \/
          (FlowA.local_score term i = FlowA.local_score term w /\
           gt (FlowA.remote_score w) (FlowA.remote_score i) = true)) /\
       (forall first, nth_error items 0 = Some first ->
          k = 0 \/
          (FlowA.local_score term first < FlowA.local_score term w)%Z \/
          (FlowA.local_score term first = FlowA.local_score term w /\
           gt (FlowA.remote_score w) (FlowA.remote_score first) = true))) /\
  (forall (term : string) (a b : SearchItem) (q : Q),
     FlowA.local_score term a = FlowA.local_score term b ->
     FlowA.remote_score a = score_of Null ->
     FlowA.remote_score b = score_of (Num q) -> (0 < q)%Q ->
     FlowA.findBestMatch [a; b] term = Some (FlowA.current_item b)) /\
  (forall (term : string) (a b : SearchItem),
     FlowA.local_score term a = FlowA.local_score term b ->
     FlowA.remote_score a = score_of Undefined ->
     FlowA.findBestMatch [a; b] term = Some (FlowA.current_item a)).
Proof.
  split; [|split].
  - intros term items N.
    destruct (fold_stands_at term items N) as [k [w [E [S1 S]]]].
    exists k, w; split; [exact S1|split; [|exact S]].
    rewrite findBestMatch_fold, E by exact N; reflexivity.
  - intros term a b q L Ra Rb P.
    rewrite findBestMatch_fold by discriminate; cbn [fold_left].
    rewrite step_sentinel, step_selected; unfold FlowA.beats.
    cbn [FlowA.selected FlowA.best_score FlowA.best_resultScore].
    rewrite L, Z.ltb_irrefl, Z.eqb_refl, Ra, Rb; cbn [orb andb score_of].
    rewrite (gt_lt q (inject_Z 0)) by exact P; reflexivity.
  - intros term a b L Ra.
    rewrite findBestMatch_fold by discriminate; cbn [fold_left].
    rewrite step_sentinel, step_selected; unfold FlowA.beats.
    cbn [FlowA.selected FlowA.best_score FlowA.best_resultScore].
    rewrite L, Z.ltb_irrefl, Z.eqb_refl, Ra; cbn [orb andb score_of].
    destruct (FlowA.remote_score b); reflexivity.
Qed.

Lemma findBestMatch_cascade_witness :
  (exists k w,
     nth_error [Examples.zero_first; Examples.zero_second] k = Some w /\
     FlowA.findBestMatch [Examples.zero_first; Examples.zero_second] "Acme" =
       Some (FlowA.current_item w)) /\
  FlowA.findBestMatch
    [Examples.wrapped_null Examples.acme_unscored; Examples.zero_second]
    "Globex" =
    Some (FlowA.current_item Examples.zero_second) /\
  FlowA.findBestMatch
    [Examples.wrapped_unscored Examples.acme_unscored; Examples.zero_second]
    "Globex" =
    Some Examples.acme_unscored.
Proof.
  destruct findBestMatch_cascade as [C [N U]].
  split; [|split].
  - destruct (C "Acme" [Examples.zero_first; Examples.zero_second])
      as [k [w [H1 [H2 _]]]]; [discriminate|].
    exists k, w; split; [exact H1|exact H2].
  - apply (N "Globex" (Examples.wrapped_null Examples.acme_unscored)
             Examples.zero_second 5%Q); reflexivity.
  - apply (U "Globex" (Examples.wrapped_unscored Examples.acme_unscored)
             Examples.zero_second); reflexivity.
Defined.

(** C2 as first stated fails: both elements score 0 and the scorer
    returns the second, which has the higher remote score, not the
    first. *)
Lemma all_zero_not_first :
  FlowA.local_score "Acme" Examples.zero_first = 0%Z /\
  FlowA.local_score "Acme" Examples.zero_second = 0%Z /\
  FlowA.findBestMatch [Examples.zero_first; Examples.zero_second] "Acme" =
    Some (FlowA.current_item Examples.zero_second) /\
  FlowA.findBestMatch [Examples.zero_first; Examples.zero_second] "Acme" <>
    Some (FlowA.current_item Examples.zero_first).
Proof.
  repeat split; discriminate.
Qed.

(** ** The final string *)

Lemma substring_length (n : nat) (s : string) :
  n <= String.length s -> String.length (substring 0 n s) = n.
Proof.
  revert s; induction n as [|n IH]; intros s H.
  - destruct s; reflexivity.
  - destruct s as [|c s]; cbn [String.length] in H; [lia|].
    cbn [substring String.length]; rewrite IH; [reflexivity|lia].
Qed.

Lemma substring_prefix (n : nat) (s : string) :
  exists rest, s = substring 0 n s ++ rest.
Proof.
  revert s; induction n as [|n IH]; intros s.
  - exists s; destruct s; reflexivity.
  - destruct s as [|c s]; [exists ""; reflexivity|].
    destruct (IH s) as [rest E]; exists rest.
    cbn [substring append]; rewrite <- E; reflexivity.
Qed.

Lemma truncate_long (s : string) :
  FlowA.MAX_LENGTH < String.length s ->
  FlowA.truncate s = substring 0 FlowA.MAX_LENGTH s /\
  String.length (FlowA.truncate s) = FlowA.MAX_LENGTH.
Proof.
  intro H; unfold FlowA.truncate.
  destruct (Nat.ltb_spec FlowA.MAX_LENGTH (String.length s)) as [_|K]; [|lia].
  split; [reflexivity|apply substring_length; lia].
Qed.

Lemma truncate_short (s : string) :
  String.length s <= FlowA.MAX_LENGTH -> FlowA.truncate s = s.
Proof.
  intro H; unfold FlowA.truncate.
  destruct (Nat.ltb_spec FlowA.MAX_LENGTH (String.length s)) as [K|_]; [lia|].
  reflexivity.
Qed.

Section FlowA_handler.

Variable axios_search : Request -> result SearchResults.
Variable axios_get : Request -> result value.
Variable JSON_stringify : value -> string.

Local Abbreviation handler :=
  (FlowA.handler axios_search axios_get JSON_stringify).
Local Abbreviation key input := (Some (FlowA.pipedriveApiKey input)).
Local Abbreviation term input := (Some (FlowA.searchTerm input)).
Local Abbreviation domain := (FlowA.full_domain None).
Local Abbreviation cleaned_info input :=
  (FlowA.cleaned_info axios_search axios_get (key input) domain (term input)).

(** The handler, with its input destructured: [input.companyDomain] is
    not a key of the input. *)
Lemma handler_unfold (input : FlowA.Input) :
  handler input =
  match cleaned_info input with
  | OK cleanedInfo =>
      OK {| textResponse :=
              FlowA.truncate
                (FlowA.with_instructions (FlowA.instructions input)
                   (JSON_stringify cleanedInfo)) |}
  | Throw error =>
      Throw (Thrown ("Failed to process request: " ++ message error))
  end.
Proof.
  unfold FlowA.handler.
  change (FlowA.input_get input "pipedriveApiKey") with (key input).
  change (FlowA.input_get input "companyDomain") with (@None string).
  change (FlowA.input_get input "searchTerm") with (term input).
  change (FlowA.input_get input "instructions")
    with (FlowA.instructions input).
  destruct (FlowA.cleaned_info _ _ _ _ _); reflexivity.
Qed.

Lemma handler_OK (input : FlowA.Input) (out : OutputObject) :
  handler input = OK out ->
  exists cleanedInfo,
    cleaned_info input = OK cleanedInfo /\
    textResponse out =
    FlowA.truncate
      (FlowA.with_instructions (FlowA.instructions input)
         (JSON_stringify cleanedInfo)).
Proof.
  rewrite handler_unfold.
  destruct (cleaned_info input) as [c|e]; intro H; [|discriminate].
  exists c; split; [reflexivity|].
  injection H as <-; reflexivity.
Qed.

Lemma cleaned_info_pruned (apiKey : option string) (fullDomain : string)
  (searchTerm : option string) (v : value) :
  FlowA.cleaned_info axios_search axios_get apiKey fullDomain searchTerm =
    OK v ->
  exists info, v = FlowA.prune (Obj info).
Proof.
  unfold FlowA.cleaned_info; intro H.
  do 5 (apply bind_OK in H; destruct H as [? [_ H]]).
  rewrite removeNulls_object in H by reflexivity.
  injection H as <-; eexists; reflexivity.
Qed.

(** C7: the string a flow A invocation returns is the serialized
    payload, after the instructions prefix, cut to its first 90,000
    characters when it is longer and unchanged otherwise. *)
Theorem handler_truncates (input : FlowA.Input) (out : OutputObject) :
  handler input = OK out ->
  exists cleanedInfo,
    cleaned_info input = OK cleanedInfo /\
    let final :=
      FlowA.with_instructions (FlowA.instructions input)
        (JSON_stringify cleanedInfo) in
    (90000 < String.length final ->
     String.length (textResponse out) = 90000 /\
     textResponse out = substring 0 90000 final /\
     exists rest, final = textResponse out ++ rest) /\
    (String.length final <= 90000 -> textResponse out = final).
Proof.
  intro H; apply handler_OK in H; destruct H as [c [C E]].
  exists c; split; [exact C|].
  cbv zeta; rewrite E; split; intro L.
  - destruct (truncate_long _ L) as [T N]; rewrite N, T.
    repeat split; apply substring_prefix.
  - apply truncate_short; exact L.
Qed.

Lemma best_of_no_hit (r : SearchResults) (t : option string) :
  positive (items_length r) = false -> FlowA.best_of r t = OK None.
Proof. unfold FlowA.best_of; intros ->; reflexivity. Qed.

Lemma best_of_items (l : list SearchItem) (t : string) :
  l <> [] ->
  FlowA.best_of {| data := Some {| items := Some l |} |} (Some t) =
  OK (FlowA.findBestMatch l t).
Proof. destruct l; [congruence|reflexivity]. Qed.

(** C3, on the code: when the deal search fails and the lead search
    yields no hit, the handler does not return the no-match payload: the
    fallback of the deal search has no [items], and reading the closest
    deals throws. *)
Theorem deal_search_failure_aborts (input : FlowA.Input) (e : exn)
  (leadResults : SearchResults) :
  axios_search (FlowA.deal_search_request (key input) domain (term input)) =
    Throw e ->
  FlowA.searchPipedriveLead axios_search (key input) domain (term input) =
    OK leadResults ->
  positive (items_length leadResults) = false ->
  handler input =
  Throw (Thrown "Failed to process request: Cannot read properties of undefined (reading 'slice')").
Proof.
  intros D L P; rewrite handler_unfold.
  unfold FlowA.cleaned_info, FlowA.searchPipedriveDeal.
  rewrite L, D; cbn [try_catch bind].
  rewrite (best_of_no_hit leadResults _ P).
  reflexivity.
Qed.

(** The lead search does it right: its fallback has an empty [items],
    and with a deal search that finds nothing the no-match payload is
    returned, its two lists of closest matches as empty objects. *)
Lemma no_match_payload (input : FlowA.Input) :
  axios_search (FlowA.deal_search_request (key input) domain (term input)) =
    OK {| data := Some {| items := Some [] |} |} ->
  FlowA.searchPipedriveLead axios_search (key input) domain (term input) =
    OK {| data := Some {| items := Some [] |} |} ->
  cleaned_info input =
  OK (Obj [("searchTerm", Str (FlowA.searchTerm input));
           ("leadsFound", of_nat 0);
           ("dealsFound", of_nat 0);
           ("message", Str "No exact matches found.");
           ("closestMatches", Obj [("deals", Obj []); ("leads", Obj [])])]).
Proof.
  intros D L.
  unfold FlowA.cleaned_info, FlowA.searchPipedriveDeal.
  rewrite L, D; reflexivity.
Qed.

Lemma lead_search_failure_masked (k : option string) (d : string)
  (t : option string) (e : exn) :
  axios_search (FlowA.lead_search_request k d t) = Throw e ->
  FlowA.searchPipedriveLead axios_search k d t =
  OK {| data := Some {| items := Some [] |} |}.
Proof. unfold FlowA.searchPipedriveLead; intros ->; reflexivity. Qed.

Lemma deal_search_failure_masked (k : option string) (d : string)
  (t : option string) (e : exn) :
  axios_search (FlowA.deal_search_request k d t) = Throw e ->
  FlowA.searchPipedriveDeal axios_search k d t =
  OK {| data := Some {| items := None |} |}.
Proof. unfold FlowA.searchPipedriveDeal; intros ->; reflexivity. Qed.

Lemma getDealInfo_object (k : option string) (d : string)
  (i : option ident) (v : value) :
  FlowA.getDealInfo axios_get k d i = OK v ->
  exists deal activities notes,
    v = Obj [("deal", deal); ("activities", activities); ("notes", notes)].
Proof.
  unfold FlowA.getDealInfo.
  repeat match goal with
         | |- context [axios_get ?r] =>
             destruct (axios_get r); cbn [bind try_catch];
             [|discriminate]
         end.
  repeat match goal with
         | |- context [prop ?b ?n] =>
             destruct (prop b n); cbn [bind try_catch]; [|discriminate]
         end.
  intro H; injection H as <-; eauto.
Qed.

(** C4: when the deal search returns hits, the deal branch is taken,
    whatever the lead search returned: the request stands or falls with
    the detail of the best deal, and the payload carries
    [bestMatch.type = "deal"], that detail pruned, and under
    [leadsFound] and [dealsFound] the numbers of items the two searches
    returned. *)
Theorem deal_branch_first (input : FlowA.Input)
  (leadItems dealItems : list SearchItem) (deal : Hit) :
  axios_search (FlowA.lead_search_request (key input) domain (term input)) =
    OK {| data := Some {| items := Some leadItems |} |} ->
  axios_search (FlowA.deal_search_request (key input) domain (term input)) =
    OK {| data := Some {| items := Some dealItems |} |} ->
  FlowA.findBestMatch dealItems (FlowA.searchTerm input) = Some deal ->
  let payload d :=
    Obj [("searchTerm", Str (FlowA.searchTerm input));
         ("leadsFound", of_nat (List.length leadItems));
         ("dealsFound", of_nat (List.length dealItems));
         ("bestMatch", Obj [("type", Str "deal");
                            ("data", FlowA.prune d)])] in
  cleaned_info input =
    (d <- FlowA.getDealInfo axios_get (key input) domain (id deal) ;;
     OK (payload d)) /\
  handler input =
    match FlowA.getDealInfo axios_get (key input) domain (id deal) with
    | OK d =>
        OK {| textResponse :=
                FlowA.truncate
                  (FlowA.with_instructions (FlowA.instructions input)
                     (JSON_stringify (payload d))) |}
    | Throw error =>
        Throw (Thrown ("Failed to process request: " ++ message error))
    end.
Proof.
  intros L D B payload.
  assert (C : cleaned_info input =
              (d <- FlowA.getDealInfo axios_get (key input) domain (id deal) ;;
               OK (payload d))).
  { assert (N : dealItems <> []) by (intros ->; discriminate).
    unfold FlowA.cleaned_info, FlowA.searchPipedriveLead,
      FlowA.searchPipedriveDeal.
    rewrite L, D; cbn [try_catch bind].
    rewrite (best_of_items dealItems _ N), B; cbn [bind].
    assert (E : exists bestLead,
              FlowA.best_of {| data := Some {| items := Some leadItems |} |}
                (term input) = OK bestLead).
    { destruct leadItems; eexists; reflexivity. }
    destruct E as [bestLead ->]; cbn [bind].
    destruct (FlowA.getDealInfo axios_get _ _ _) as [d|e] eqn:G;
      cbn [bind]; [|reflexivity].
    destruct (getDealInfo_object _ _ _ _ G) as [x [y [z ->]]].
    rewrite removeNulls_object by reflexivity; reflexivity. }
  split; [exact C|].
  rewrite handler_unfold, C.
  destruct (FlowA.getDealInfo axios_get _ _ _); reflexivity.
Qed.

End FlowA_handler.

Lemma deal_search_failure_aborts_witness :
  FlowA.handler Examples.failing_search Examples.acme_get Examples.short_text
    Examples.acme_input =
  Throw (Thrown "Failed to process request: Cannot read properties of undefined (reading 'slice')").
Proof.
  apply (deal_search_failure_aborts Examples.failing_search Examples.acme_get
           Examples.short_text Examples.acme_input
           (Thrown "Request failed with status code 500")
           {| data := Some {| items := Some [] |} |});
    reflexivity.
Defined.

Lemma deal_branch_first_witness :
  FlowA.local_score "Acme Corp" Examples.acme_deal = 5%Z /\
  FlowA.local_score "Acme Corp" Examples.acme_lead = 0%Z /\
  FlowA.cleaned_info Examples.acme_search Examples.acme_get
    (Some "0123456789abcdef") (FlowA.full_domain None) (Some "Acme Corp") =
  OK (Obj [("searchTerm", Str "Acme Corp");
           ("leadsFound", of_nat 1);
           ("dealsFound", of_nat 1);
           ("bestMatch",
            Obj [("type", Str "deal");
                 ("data",
                  Obj [("deal", Obj [("id", Num 42);
                                     ("title", Str "Acme Corp Renewal")]);
                       ("activities",
                        Obj [("0", Obj [("id", Num 7);
                                        ("subject", Str "Call")])])])])]).
Proof.
  split; [reflexivity|split; [reflexivity|]].
  destruct (deal_branch_first Examples.acme_search Examples.acme_get
              Examples.short_text Examples.acme_input
              [Examples.acme_lead] [Examples.acme_deal]
              (FlowA.current_item Examples.acme_deal)
              eq_refl eq_refl eq_refl) as [C _].
  exact C.
Defined.

(** C9, on the code: the handler reads [input.companyDomain], which the
    action does not declare, so the two searches go to the host
    [undefined.pipedrive.com] whatever [pipedriveCompanyDomain] is; with
    a CRM that answers under [acme.pipedrive.com] only, the request for
    the domain [acme] fails. *)
Theorem search_host_undefined :
  (forall input : FlowA.Input,
     let companyDomain := FlowA.input_get input "companyDomain" in
     let fullDomain := FlowA.full_domain companyDomain in
     let apiKey := FlowA.input_get input "pipedriveApiKey" in
     let searchTerm := FlowA.input_get input "searchTerm" in
     companyDomain = None /\
     url (FlowA.lead_search_request apiKey fullDomain searchTerm) =
       "https://undefined.pipedrive.com/api/v1/leads/search" /\
     url (FlowA.deal_search_request apiKey fullDomain searchTerm) =
       "https://undefined.pipedrive.com/api/v1/deals/search" /\
     params (FlowA.lead_search_request apiKey fullDomain searchTerm) =
       [("term", Str (FlowA.searchTerm input));
        ("fields", Str "title,custom_fields,notes");
        ("exact_match", Bool false);
        ("limit", Num 10)] /\
     lookup "x-api-token"
       (headers (FlowA.lead_search_request apiKey fullDomain searchTerm)) =
       Str (FlowA.pipedriveApiKey input)) /\
  FlowA.handler Examples.acme_host_search Examples.acme_host_get
    Examples.short_text Examples.acme_input =
  Throw (Thrown "Failed to process request: Cannot read properties of undefined (reading 'slice')").
Proof.
  split; [|reflexivity].
  intros input; repeat split.
Qed.

(** ** Arrays under null pruning *)

Lemma indexed_nth (l : list value) (j : nat) (k : string) (x : value) :
  In (k, x) (indexed j l) <->
  exists i, nth_error l i = Some x /\ k = index_key (j + i).
Proof.
  revert j; induction l as [|y l IH]; intro j; cbn [indexed].
  - split; [contradiction|intros [[|i] [H _]]; discriminate].
  - split.
    + intros [E|H].
      * injection E as <- <-; exists 0; rewrite Nat.add_0_r; auto.
      * apply IH in H; destruct H as [i [N ->]].
        exists (S i); rewrite Nat.add_succ_r; auto.
    + intros [[|i] [N ->]].
      * injection N as ->; rewrite Nat.add_0_r; left; reflexivity.
      * right; apply IH; exists i; rewrite Nat.add_succ_r; auto.
Qed.

Lemma pruned_indexed (l : list value) (k : string) (v : value) :
  In (k, v) (FlowA.pruned_entries (indexed 0 l)) <->
  exists i x, nth_error l i = Some x /\ nullish x = false /\
              k = index_key i /\ v = FlowA.prune x.
Proof.
  split.
  - intro H; apply pruned_entries_In in H.
    destruct H as [[k' x] [H [N E]]]; cbn [fst snd] in N, E.
    injection E as -> ->.
    apply indexed_nth in H; destruct H as [i [H ->]].
    exists i, x; auto.
  - intros [i [x [H [N [-> ->]]]]].
    unfold FlowA.pruned_entries.
    apply in_map_iff; exists (index_key i, x); split; [reflexivity|].
    apply filter_In; split.
    + apply indexed_nth; exists i; auto.
    + unfold FlowA.kept; cbn [snd]; rewrite N; reflexivity.
Qed.

(** A record with its two lists of attachments, pruned. *)
Lemma prune_record (k : string) (d : value) (a n : list value) :
  FlowA.prune (Obj [(k, d); ("activities", Arr a); ("notes", Arr n)]) =
  Obj (FlowA.pruned_entries [(k, d)] ++
       [("activities", Obj (FlowA.pruned_entries (indexed 0 a)));
        ("notes", Obj (FlowA.pruned_entries (indexed 0 n)))])%list.
Proof.
  rewrite prune_Obj; f_equal.
  change (FlowA.pruned_entries
            ([(k, d)] ++ [("activities", Arr a); ("notes", Arr n)]) =
          (FlowA.pruned_entries [(k, d)] ++
           [("activities", Obj (FlowA.pruned_entries (indexed 0 a)));
            ("notes", Obj (FlowA.pruned_entries (indexed 0 n)))])%list).
  unfold FlowA.pruned_entries at 1 2; rewrite filter_app, map_app; f_equal.
  cbn [filter FlowA.kept snd nullish negb map fst].
  rewrite !prune_Arr; reflexivity.
Qed.

Section FlowA_arrays.

Variable axios_search : Request -> result SearchResults.
Variable axios_get : Request -> result value.

Local Abbreviation key input := (Some (FlowA.pipedriveApiKey input)).
Local Abbreviation term input := (Some (FlowA.searchTerm input)).
Local Abbreviation domain := (FlowA.full_domain None).
Local Abbreviation cleaned_info input :=
  (FlowA.cleaned_info axios_search axios_get (key input) domain (term input)).

Lemma deal_payload (input : FlowA.Input)
  (leadItems dealItems : list SearchItem) (deal : Hit) (d : value)
  (a n : list value) :
  axios_search (FlowA.lead_search_request (key input) domain (term input)) =
    OK {| data := Some {| items := Some leadItems |} |} ->
  axios_search (FlowA.deal_search_request (key input) domain (term input)) =
    OK {| data := Some {| items := Some dealItems |} |} ->
  FlowA.findBestMatch dealItems (FlowA.searchTerm input) = Some deal ->
  FlowA.getDealInfo axios_get (key input) domain (id deal) =
    OK (Obj [("deal", d); ("activities", Arr a); ("notes", Arr n)]) ->
  cleaned_info input =
  OK (Obj [("searchTerm", Str (FlowA.searchTerm input));
           ("leadsFound", of_nat (List.length leadItems));
           ("dealsFound", of_nat (List.length dealItems));
           ("bestMatch",
            Obj [("type", Str "deal");
                 ("data",
                  Obj (FlowA.pruned_entries [("deal", d)] ++
                       [("activities",
                         Obj (FlowA.pruned_entries (indexed 0 a)));
                        ("notes",
                         Obj (FlowA.pruned_entries (indexed 0 n)))])%list)])]).
Proof.
  intros L D B G.
  assert (N : dealItems <> []) by (intros ->; discriminate).
  unfold FlowA.cleaned_info, FlowA.searchPipedriveLead,
    FlowA.searchPipedriveDeal.
  rewrite L, D; cbn [try_catch bind].
  rewrite (best_of_items dealItems _ N), B; cbn [bind].
  assert (E : exists bestLead,
            FlowA.best_of {| data := Some {| items := Some leadItems |} |}
              (term input) = OK bestLead).
  { destruct leadItems; eexists; reflexivity. }
  destruct E as [bestLead ->]; cbn [bind].
  rewrite G; cbn [bind].
  rewrite removeNulls_object by reflexivity.
  rewrite <- prune_record; reflexivity.
Qed.

Lemma lead_payload (input : FlowA.Input)
  (leadItems : list SearchItem) (lead : Hit) (d : value)
  (a n : list value) :
  axios_search (FlowA.lead_search_request (key input) domain (term input)) =
    OK {| data := Some {| items := Some leadItems |} |} ->
  axios_search (FlowA.deal_search_request (key input) domain (term input)) =
    OK {| data := Some {| items := Some [] |} |} ->
  FlowA.findBestMatch leadItems (FlowA.searchTerm input) = Some lead ->
  FlowA.getLeadInfo axios_get (key input) domain (id lead) =
    OK (Obj [("lead", d); ("activities", Arr a); ("notes", Arr n)]) ->
  cleaned_info input =
  OK (Obj [("searchTerm", Str (FlowA.searchTerm input));
           ("leadsFound", of_nat (List.length leadItems));
           ("dealsFound", of_nat 0);
           ("bestMatch",
            Obj [("type", Str "lead");
                 ("data",
                  Obj (FlowA.pruned_entries [("lead", d)] ++
                       [("activities",
                         Obj (FlowA.pruned_entries (indexed 0 a)));
                        ("notes",
                         Obj (FlowA.pruned_entries (indexed 0 n)))])%list)])]).
Proof.
  intros L D B G.
  assert (N : leadItems <> []) by (intros ->; discriminate).
  unfold FlowA.cleaned_info, FlowA.searchPipedriveLead,
    FlowA.searchPipedriveDeal.
  rewrite L, D; cbn [try_catch bind].
  rewrite best_of_no_hit by reflexivity; cbn [bind].
  rewrite (best_of_items leadItems _ N), B; cbn [bind].
  rewrite G; cbn [bind].
  rewrite removeNulls_object by reflexivity.
  rewrite <- prune_record; reflexivity.
Qed.

End FlowA_arrays.

(** C10: [removeNulls] turns an array, at the top and at any depth, into
    an object whose keys are the indices of the elements that are
    neither [null] nor [undefined], each element pruned in its turn; so
    what the handler of flow A serializes holds no array at any depth:
    the two collections of closest matches are empty objects, and the
    activities and the notes of the best deal or lead are objects keyed
    by index. *)
Theorem arrays_become_objects :
  (forall l, FlowA.removeNulls (Arr l) =
             OK (Obj (FlowA.pruned_entries (indexed 0 l)))) /\
  (forall l, FlowA.prune (Arr l) =
             Obj (FlowA.pruned_entries (indexed 0 l))) /\
  (forall l, FlowA.prune (Obj l) = Obj (FlowA.pruned_entries l)) /\
  (forall v, is_object v = false -> FlowA.prune v = v) /\
  (forall es,
     FlowA.pruned_entries es =
     map (fun kv => (fst kv, FlowA.prune (snd kv)))
       (filter (fun kv => negb (nullish (snd kv))) es)) /\
  (forall l k v,
     In (k, v) (FlowA.pruned_entries (indexed 0 l)) <->
     exists i x, nth_error l i = Some x /\ nullish x = false /\
                 k = index_key i /\ v = FlowA.prune x) /\
  FlowA.removeNulls (Arr [Str "a"; Null; Str "b"]) =
    OK (Obj [("0", Str "a"); ("2", Str "b")]) /\
  FlowA.removeNulls
    (Obj [("notes",
           Arr [Null;
                Obj [("tags", Arr [Str "a"; Undefined; Str "b"]);
                     ("by", Null)]])]) =
    OK (Obj [("notes",
              Obj [("1", Obj [("tags",
                               Obj [("0", Str "a"); ("2", Str "b")])])])]) /\
  (forall x, match FlowA.removeNulls x with
             | OK y => FlowA.array_free y = true
             | Throw _ => nullish x = true
             end) /\
  (forall axios_search axios_get JSON_stringify input,
     match FlowA.handler axios_search axios_get JSON_stringify input with
     | OK out =>
         exists cleanedInfo,
           FlowA.array_free cleanedInfo = true /\
           textResponse out =
           FlowA.truncate
             (FlowA.with_instructions (FlowA.instructions input)
                (JSON_stringify cleanedInfo))
     | Throw _ => True
     end) /\
  (forall axios_search axios_get input,
     let key := Some (FlowA.pipedriveApiKey input) in
     let term := Some (FlowA.searchTerm input) in
     let domain := FlowA.full_domain None in
     axios_search (FlowA.deal_search_request key domain term) =
       OK {| data := Some {| items := Some [] |} |} ->
     FlowA.searchPipedriveLead axios_search key domain term =
       OK {| data := Some {| items := Some [] |} |} ->
     FlowA.cleaned_info axios_search axios_get key domain term =
     OK (Obj [("searchTerm", Str (FlowA.searchTerm input));
              ("leadsFound", of_nat 0);
              ("dealsFound", of_nat 0);
              ("message", Str "No exact matches found.");
              ("closestMatches",
               Obj [("deals", Obj []); ("leads", Obj [])])])) /\
  (forall axios_search axios_get input leadItems dealItems deal d a n,
     let key := Some (FlowA.pipedriveApiKey input) in
     let term := Some (FlowA.searchTerm input) in
     let domain := FlowA.full_domain None in
     axios_search (FlowA.lead_search_request key domain term) =
       OK {| data := Some {| items := Some leadItems |} |} ->
     axios_search (FlowA.deal_search_request key domain term) =
       OK {| data := Some {| items := Some dealItems |} |} ->
     FlowA.findBestMatch dealItems (FlowA.searchTerm input) = Some deal ->
     FlowA.getDealInfo axios_get key domain (id deal) =
       OK (Obj [("deal", d); ("activities", Arr a); ("notes", Arr n)]) ->
     FlowA.cleaned_info axios_search axios_get key domain term =
     OK (Obj [("searchTerm", Str (FlowA.searchTerm input));
              ("leadsFound", of_nat (List.length leadItems));
              ("dealsFound", of_nat (List.length dealItems));
              ("bestMatch",
               Obj [("type", Str "deal");
                    ("data",
                     Obj (FlowA.pruned_entries [("deal", d)] ++
                          [("activities",
                            Obj (FlowA.pruned_entries (indexed 0 a)));
                           ("notes",
                            Obj (FlowA.pruned_entries (indexed 0 n)))])%list)])])) /\
  (forall axios_search axios_get input leadItems lead d a n,
     let key := Some (FlowA.pipedriveApiKey input) in
     let term := Some (FlowA.searchTerm input) in
     let domain := FlowA.full_domain None in
     axios_search (FlowA.lead_search_request key domain term) =
       OK {| data := Some {| items := Some leadItems |} |} ->
     axios_search (FlowA.deal_search_request key domain term) =
       OK {| data := Some {| items := Some [] |} |} ->
     FlowA.findBestMatch leadItems (FlowA.searchTerm input) = Some lead ->
     FlowA.getLeadInfo axios_get key domain (id lead) =
       OK (Obj [("lead", d); ("activities", Arr a); ("notes", Arr n)]) ->
     FlowA.cleaned_info axios_search axios_get key domain term =
     OK (Obj [("searchTerm", Str (FlowA.searchTerm input));
              ("leadsFound", of_nat (List.length leadItems));
              ("dealsFound", of_nat 0);
              ("bestMatch",
               Obj [("type", Str "lead");
                    ("data",
                     Obj (FlowA.pruned_entries [("lead", d)] ++
                          [("activities",
                            Obj (FlowA.pruned_entries (indexed 0 a)));
                           ("notes",
                            Obj (FlowA.pruned_entries (indexed 0 n)))])%list)])])).
Proof.
  split; [reflexivity|].
  split; [exact prune_Arr|].
  split; [exact prune_Obj|].
  split; [exact prune_primitive|].
  split; [reflexivity|].
  split; [exact pruned_indexed|].
  split; [reflexivity|].
  split; [reflexivity|].
  split; [|split; [|split; [|split]]].
  - intro x; destruct (entries x) as [es|e] eqn:E.
    + rewrite (removeNulls_entries x es E).
      apply array_free_pruned_entries, Forall_forall; intros kv _.
      apply array_free_prune.
    + unfold FlowA.removeNulls; rewrite E; exact (entries_throws x e E).
  - intros s g J input.
    destruct (FlowA.handler s g J input) as [out|] eqn:H; [|exact I].
    apply handler_OK in H; destruct H as [c [C E]].
    exists c; split; [|exact E].
    apply cleaned_info_pruned in C; destruct C as [info ->].
    apply array_free_prune.
  - intros s g input key term domain D L.
    exact (no_match_payload s g input D L).
  - intros s g input leadItems dealItems deal d a n key term domain.
    apply deal_payload.
  - intros s g input leadItems lead d a n key term domain.
    apply lead_payload.
Qed.

Lemma arrays_become_objects_witness :
  FlowA.cleaned_info Examples.acme_search Examples.listing_get
    (Some "0123456789abcdef") (FlowA.full_domain None) (Some "Acme Corp") =
  OK (Obj [("searchTerm", Str "Acme Corp");
           ("leadsFound", of_nat 1);
           ("dealsFound", of_nat 1);
           ("bestMatch",
            Obj [("type", Str "deal");
                 ("data",
                  Obj [("deal",
                        Obj [("id", Num 42);
                             ("labels", Obj [("0", Str "hot")])]);
                       ("activities", Obj [("0", Obj [("id", Num 7)])]);
                       ("notes",
                        Obj [("1", Obj [("content", Str "Call back")])])])])]) /\
  FlowA.cleaned_info Examples.empty_search Examples.listing_get
    (Some "0123456789abcdef") (FlowA.full_domain None) (Some "Acme Corp") =
  OK (Obj [("searchTerm", Str "Acme Corp");
           ("leadsFound", of_nat 0);
           ("dealsFound", of_nat 0);
           ("message", Str "No exact matches found.");
           ("closestMatches", Obj [("deals", Obj []); ("leads", Obj [])])]).
Proof.
  destruct arrays_become_objects
    as [_ [_ [_ [_ [_ [_ [_ [_ [_ [_ [N [D _]]]]]]]]]]]].
  split.
  - exact (D Examples.acme_search Examples.listing_get Examples.acme_input
             [Examples.acme_lead] [Examples.acme_deal]
             (FlowA.current_item Examples.acme_deal)
             (Obj [("id", Num 42); ("labels", Arr [Str "hot"])])
             [Obj [("id", Num 7); ("note", Null)]]
             [Null; Obj [("content", Str "Call back")]]
             eq_refl eq_refl eq_refl eq_refl).
  - exact (N Examples.empty_search Examples.listing_get Examples.acme_input
             eq_refl eq_refl).
Defined.

(** ** Detail aggregation *)

Section FlowA_details.

Variable axios_get : Request -> result value.
Variable apiKey : option string.
Variable companyDomain : string.
Variable recordId : option ident.

Local Abbreviation leadUrl :=
  (("https://" ++ companyDomain ++ "/api/v1") ++ "/leads/" ++
   ident_string recordId).
Local Abbreviation dealUrl :=
  (("https://" ++ companyDomain ++ "/api/v1") ++ "/deals/" ++
   ident_string recordId).
Local Abbreviation get u p := (axios_get (FlowA.detail_request apiKey u p)).
Local Abbreviation all_fields := [("get_all_custom_fields", Bool true)].
Local Abbreviation getLeadInfo :=
  (FlowA.getLeadInfo axios_get apiKey companyDomain recordId).
Local Abbreviation getDealInfo :=
  (FlowA.getDealInfo axios_get apiKey companyDomain recordId).

(** C5: a failed fetch of the record itself fails the aggregation with
    an error that names the kind; a failed fetch of the activities or
    of the notes of a lead leaves an empty list in their place and the
    aggregation succeeds; a failed fetch of the activities or of the
    notes of a deal fails the aggregation. *)
Theorem detail_failures :
  (forall e, get leadUrl [] = Throw e ->
     getLeadInfo =
     Throw (Thrown ("Failed to fetch lead info: " ++ message e))) /\
  (forall e, get dealUrl all_fields = Throw e ->
     getDealInfo =
     Throw (Thrown ("Failed to fetch deal info: " ++ message e))) /\
  (forall body lead,
     get leadUrl [] = OK body -> prop body "data" = OK lead ->
     exists activities notes,
       getLeadInfo =
       OK (Obj [("lead", lead); ("activities", activities);
                ("notes", notes)]) /\
       (forall e, get (leadUrl ++ "/activities") [] = Throw e ->
                  activities = Arr []) /\
       (forall e, get (leadUrl ++ "/notes") [] = Throw e ->
                  notes = Arr [])) /\
  (forall body e,
     get dealUrl all_fields = OK body ->
     get (dealUrl ++ "/activities") [] = Throw e ->
     getDealInfo =
     Throw (Thrown ("Failed to fetch deal info: " ++ message e))) /\
  (forall body activities e,
     get dealUrl all_fields = OK body ->
     get (dealUrl ++ "/activities") [] = OK activities ->
     get (dealUrl ++ "/notes") [] = Throw e ->
     getDealInfo =
     Throw (Thrown ("Failed to fetch deal info: " ++ message e))).
Proof.
  unfold FlowA.getLeadInfo, FlowA.getDealInfo.
  split; [|split; [|split; [|split]]].
  - intros e ->; reflexivity.
  - intros e ->; reflexivity.
  - intros body lead -> P; cbn [bind].
    destruct (get (leadUrl ++ "/activities") []) as [a|ea];
      destruct (get (leadUrl ++ "/notes") []) as [n|en];
      cbn [bind try_catch].
    + destruct (FlowA.data_or_empty a) as [a'|], (FlowA.data_or_empty n) as [n'|];
        cbn [bind try_catch]; rewrite P; cbn [bind try_catch];
        eexists; eexists; (split; [reflexivity|split; discriminate]).
    + destruct (FlowA.data_or_empty a) as [a'|];
        cbn [bind try_catch]; rewrite P; cbn [bind try_catch];
        eexists; eexists;
        (split; [reflexivity|split; [discriminate|reflexivity]]).
    + destruct (FlowA.data_or_empty n) as [n'|];
        cbn [bind try_catch]; rewrite P; cbn [bind try_catch];
        eexists; eexists;
        (split; [reflexivity|split; [reflexivity|discriminate]]).
    + rewrite P; cbn [bind try_catch].
      eexists; eexists; (split; [reflexivity|split; reflexivity]).
  - intros body e -> ->; reflexivity.
  - intros body activities e -> -> ->; reflexivity.
Qed.

End FlowA_details.

Lemma detail_failures_witness :
  FlowA.getLeadInfo Examples.no_attachments_get (Some "0123456789abcdef")
    "acme.pipedrive.com" (Some (IdStr "7f3a")) =
  OK (Obj [("lead", Obj [("id", Num 42);
                         ("title", Str "Acme Corp Renewal");
                         ("value", Null)]);
           ("activities", Arr []);
           ("notes", Arr [])]) /\
  FlowA.getDealInfo Examples.no_attachments_get (Some "0123456789abcdef")
    "acme.pipedrive.com" (Some (IdNum 42)) =
  Throw (Thrown "Failed to fetch deal info: Request failed with status code 500").
Proof.
  split.
  - destruct (detail_failures Examples.no_attachments_get
                (Some "0123456789abcdef") "acme.pipedrive.com"
                (Some (IdStr "7f3a"))) as [_ [_ [H _]]].
    destruct (H _ _ eq_refl eq_refl) as [a [n [E [Ha Hn]]]].
    rewrite E, (Ha _ eq_refl), (Hn _ eq_refl); reflexivity.
  - destruct (detail_failures Examples.no_attachments_get
                (Some "0123456789abcdef") "acme.pipedrive.com"
                (Some (IdNum 42))) as [_ [_ [_ [H _]]]].
    exact (H _ _ eq_refl eq_refl).
Defined.

Lemma handler_truncates_witness :
  exists out,
    FlowA.handler Examples.empty_search Examples.acme_get Examples.long_text
      Examples.acme_input = OK out /\
    String.length (textResponse out) = 90000.
Proof.
  eexists; split; [reflexivity|].
  destruct (handler_truncates Examples.empty_search Examples.acme_get
              Examples.long_text Examples.acme_input _ eq_refl)
    as [c [_ [L _]]].
  apply L, Nat.ltb_lt; vm_compute; reflexivity.
Defined.

Lemma handler_short_examples :
  FlowA.handler Examples.empty_search Examples.acme_get Examples.short_text
    Examples.acme_input = OK {| textResponse := "{}" |} /\
  FlowA.with_instructions (Some "Be brief") "{}" =
    "Instructions for the following content: Be brief" ++
    String "010" (String "010" "{}") /\
  FlowA.with_instructions (Some "") "{}" = "{}".
Proof. repeat split. Qed.

(** ** The scorer of flow B *)

Section FlowB_scorer.

Variable lower : string.

Local Abbreviation reduce := (FlowB.reduce lower).
Local Abbreviation admitted h := (FlowB.admitted h lower).

(** What a reduction that returns has selected: nothing only if it
    started from nothing; otherwise the hit it started from or an
    admitted element, which no admitted element with a score that counts
    is above, and which is above the hit it started from if it is
    another. *)
Lemma reduce_selects (items : list (option Hit)) (best r : option Hit) :
  reduce items best = OK r ->
  (best <> None -> r <> None) /\
  (forall w, r = Some w ->
     (best = Some w \/ (In (Some w) items /\ admitted w = true)) /\
     (forall c, In (Some c) items -> admitted c = true ->
                FlowB.nonzero (result_score c) = true ->
                gt (result_score c) (result_score w) = false) /\
     (forall b, best = Some b ->
                b = w \/
                (FlowB.nonzero (result_score w) = true /\
                 gt (result_score w) (result_score b) = true))).
Proof.
  revert best; induction items as [|o items IH]; intros best H.
  - cbn [FlowB.reduce] in H; injection H as <-.
    split; [auto|]; intros w ->.
    split; [left; reflexivity|split; [intros c []|]].
    intros b E; injection E as ->; left; reflexivity.
  - cbn [FlowB.reduce] in H; apply bind_OK in H.
    destruct H as [best' [S H]].
    destruct o as [c|]; [|discriminate]; cbn [FlowB.step] in S.
    destruct (IH best' H) as [I1 I2]; clear IH H.
    destruct (FlowB.admitted c lower) eqn:A.
    + destruct best as [b|].
      * destruct (FlowB.nonzero (result_score c) &&
                  gt (result_score c) (result_score b)) eqn:G;
          injection S as <-.
        -- apply andb_true_iff in G; destruct G as [Z G].
           split; [intros _; apply I1; discriminate|].
           intros w E; destruct (I2 w E) as [J1 [J2 J3]].
           destruct (J3 c eq_refl) as [<-|[Kz K]].
           ++ split; [right; split; [left; reflexivity|exact A]|].
              split.
              ** intros c' [E'|M] A' N';
                   [injection E' as <-; apply gt_irrefl|exact (J2 c' M A' N')].
              ** intros b' E'; injection E' as <-; right; split; assumption.
           ++ split.
              ** destruct J1 as [E'|[M A']];
                   [injection E' as <-; rewrite gt_irrefl in K; discriminate|].
                 right; split; [right; exact M|exact A'].
              ** split.
                 --- intros c' [E'|M] A' N';
                       [injection E' as <-; apply gt_asym; exact K
                       |exact (J2 c' M A' N')].
                 --- intros b' E'; injection E' as <-; right.
                     split; [exact Kz|exact (gt_trans _ _ _ K G)].
        -- split; [intros _; apply I1; discriminate|].
           intros w E; destruct (I2 w E) as [J1 [J2 J3]].
           split; [destruct J1 as [J1|[M A']];
                   [left; exact J1|right; split; [right; exact M|exact A']]|].
           split; [|exact J3].
           intros c' [E'|M] A' N'; [injection E' as <-|exact (J2 c' M A' N')].
           rewrite N' in G; cbn [andb] in G.
           destruct (J3 b eq_refl) as [<-|[_ K]]; [exact G|].
           exact (gt_above _ _ _ K G).
      * injection S as <-.
        split; [intro N; contradiction N; reflexivity|].
        intros w E; destruct (I2 w E) as [J1 [J2 J3]].
        split.
        -- right; destruct J1 as [E'|[M A']];
             [injection E' as <-; split; [left; reflexivity|exact A]
             |split; [right; exact M|exact A']].
        -- split; [|intros b E'; discriminate].
           intros c' [E'|M] A' N'; [injection E' as <-|exact (J2 c' M A' N')].
           destruct (J3 c eq_refl) as [<-|[_ K]];
             [apply gt_irrefl|apply gt_asym; exact K].
    + injection S as <-.
      split; [exact I1|].
      intros w E; destruct (I2 w E) as [J1 [J2 J3]].
      split; [destruct J1 as [J1|[M A']];
              [left; exact J1|right; split; [right; exact M|exact A']]|].
      split; [|exact J3].
      intros c' [E'|M] A' N'; [injection E' as <-; congruence|].
      exact (J2 c' M A' N').
Qed.

(** On elements that are all defined the reduction returns, and it
    returns nothing only if it started from nothing and admitted no
    element. *)
Lemma reduce_returns (items : list (option Hit)) (best : option Hit) :
  Forall (fun o => o <> None) items ->
  exists r, reduce items best = OK r /\
    (r = None <->
     best = None /\ forall h, In (Some h) items -> admitted h = false).
Proof.
  intro D; revert best; induction D as [|o items N D IH]; intro best.
  - exists best; split; [reflexivity|].
    split; [intros ->; split; [reflexivity|intros h []]|intros [-> _]; reflexivity].
  - destruct o as [c|]; [clear N|contradiction N; reflexivity].
    cbn [FlowB.reduce FlowB.step].
    destruct (FlowB.admitted c lower) eqn:A.
    + assert (S : exists b', (match best with
                              | Some b =>
                                  if FlowB.nonzero (result_score c) &&
                                     gt (result_score c) (result_score b)
                                  then OK (Some c) else OK best
                              | None => OK (Some c)
                              end) = OK (Some b')).
      { destruct best as [b|]; [|eauto].
        destruct (_ && _); eauto. }
      destruct S as [b' ->]; cbn [bind].
      destruct (IH (Some b')) as [r [E [R _]]].
      exists r; split; [exact E|].
      split.
      * intro Z; apply R in Z; destruct Z; discriminate.
      * intros [_ Z]; rewrite (Z c (or_introl eq_refl)) in A; discriminate.
    + cbn [bind]; destruct (IH best) as [r [E R]].
      exists r; split; [exact E|].
      rewrite R; split; intros [B Z]; (split; [exact B|]).
      * intros h [E'|M]; [injection E' as <-; exact A|exact (Z h M)].
      * intros h M; apply Z; right; exact M.
Qed.

End FlowB_scorer.

Lemma reduce_skips (lower : string) (pre rest : list (option Hit))
  (best r : option Hit) :
  FlowB.reduce lower (pre ++ rest) best = OK r ->
  (forall h, In (Some h) pre -> FlowB.admitted h lower = false) ->
  FlowB.reduce lower rest best = OK r.
Proof.
  induction pre as [|o pre IH]; intros H N; [exact H|].
  cbn [app FlowB.reduce] in H; apply bind_OK in H.
  destruct H as [best' [S H]].
  destruct o as [c|]; [|discriminate]; cbn [FlowB.step] in S.
  rewrite (N c (or_introl eq_refl)) in S; injection S as <-.
  apply IH; [exact H|intros h M; apply N; right; exact M].
Qed.

Section FlowB_handler.

Variable axios_search : Request -> result SearchResults.
Variable axios_get : Request -> result value.
Variable completion :
  option string -> option string -> FlowB.SummaryData -> result (option string).
Variable trim : string -> string.

Local Abbreviation handler :=
  (FlowB.handler axios_search axios_get completion trim).
Local Abbreviation key input := (Some (FlowB.pipedriveApiKey input)).
Local Abbreviation term input := (Some (FlowB.searchTerm input)).
Local Abbreviation domain input :=
  (if includes (FlowB.pipedriveCompanyDomain input) ".pipedrive.com"
   then FlowB.pipedriveCompanyDomain input
   else FlowB.pipedriveCompanyDomain input ++ ".pipedrive.com").

Lemma no_match_is_fatal (input : FlowB.Input)
  (leadResults dealResults : SearchResults) :
  FlowB.searchPipedriveLead axios_search (key input) (domain input)
    (term input) = OK leadResults ->
  FlowB.searchPipedriveDeal axios_search (key input) (domain input)
    (term input) = OK dealResults ->
  FlowB.best_of leadResults (term input) = OK None ->
  FlowB.best_of dealResults (term input) = OK None ->
  handler input =
  Throw (Thrown "Failed to process request: No matching leads or deals found").
Proof.
  intros L D BL BD; unfold FlowB.handler.
  change (FlowB.input_get input "pipedriveCompanyDomain")
    with (Some (FlowB.pipedriveCompanyDomain input)).
  change (FlowB.input_get input "pipedriveApiKey") with (key input).
  change (FlowB.input_get input "searchTerm") with (term input).
  cbn [FlowB.full_domain bind].
  rewrite L, D; cbn [bind]; rewrite BL, BD; reflexivity.
Qed.

End FlowB_handler.

(** Flow B reads the domain under the key the action declares. *)
Lemma flowB_reads_declared_domain (input : FlowB.Input) :
  FlowB.full_domain (FlowB.input_get input "pipedriveCompanyDomain") =
  OK (if includes (FlowB.pipedriveCompanyDomain input) ".pipedrive.com"
      then FlowB.pipedriveCompanyDomain input
      else FlowB.pipedriveCompanyDomain input ++ ".pipedrive.com").
Proof. reflexivity. Qed.

(** C6, as amended: the scorer of flow B returns only a hit that passes
    the gate (its title, organization name or person name contains the
    term, compared in lower case); it is the first hit that passes, or
    a later one whose remote score is not zero and above the first
    one's; and no hit
    that passes the gate with a remote score that is present and not
    zero is above it.  A remote score of [null] counts as 0: a first
    hit that passes with such a score gives way to a later one with a
    positive score, while a first hit that passes without remote score
    is kept.  On hits that are all defined it returns nothing
    exactly when no hit passes the gate, and when neither collection
    yields a hit the request fails with [Failed to process request: No
    matching leads or deals found]. *)
Theorem flowB_gated_ranking :
  (forall items term w,
     FlowB.findBestMatch items term = OK (Some w) ->
     In (Some w) items /\
     FlowB.admitted w (toLowerCase term) = true /\
     (forall c, In (Some c) items ->
        FlowB.admitted c (toLowerCase term) = true ->
        FlowB.nonzero (result_score c) = true ->
        gt (result_score c) (result_score w) = false) /\
     (forall pre first rest,
        items = (pre ++ Some first :: rest)%list ->
        (forall h, In (Some h) pre ->
                   FlowB.admitted h (toLowerCase term) = false) ->
        FlowB.admitted first (toLowerCase term) = true ->
        w = first \/
        (FlowB.nonzero (result_score w) = true /\
         gt (result_score w) (result_score first) = true))) /\
  (forall items term,
     Forall (fun o => o <> None) items ->
     exists r,
       FlowB.findBestMatch items term = OK r /\
       (r = None <->
        forall h, In (Some h) items ->
                  FlowB.admitted h (toLowerCase term) = false)) /\
  (forall axios_search axios_get completion trim input leadResults dealResults,
     let key := Some (FlowB.pipedriveApiKey input) in
     let term := Some (FlowB.searchTerm input) in
     let domain :=
       if includes (FlowB.pipedriveCompanyDomain input) ".pipedrive.com"
       then FlowB.pipedriveCompanyDomain input
       else FlowB.pipedriveCompanyDomain input ++ ".pipedrive.com" in
     FlowB.searchPipedriveLead axios_search key domain term =
       OK leadResults ->
     FlowB.searchPipedriveDeal axios_search key domain term =
       OK dealResults ->
     FlowB.best_of leadResults term = OK None ->
     FlowB.best_of dealResults term = OK None ->
     FlowB.handler axios_search axios_get completion trim input =
     Throw (Thrown "Failed to process request: No matching leads or deals found")) /\
  (forall term a b q,
     FlowB.admitted a (toLowerCase term) = true ->
     FlowB.admitted b (toLowerCase term) = true ->
     result_score a = score_of Null ->
     result_score b = score_of (Num q) -> (0 < q)%Q ->
     FlowB.findBestMatch [Some a; Some b] term = OK (Some b)) /\
  (forall term a b,
     FlowB.admitted a (toLowerCase term) = true ->
     result_score a = score_of Undefined ->
     FlowB.findBestMatch [Some a; Some b] term = OK (Some a)).
Proof.
  split; [|split; [|split; [|split]]].
  - intros items term w H; unfold FlowB.findBestMatch in H.
    destruct (reduce_selects _ _ _ _ H) as [_ S].
    destruct (S w eq_refl) as [[E|[M A]] [J2 _]]; [discriminate|].
    split; [exact M|split; [exact A|split; [exact J2|]]].
    intros pre first rest -> N A'.
    apply reduce_skips in H; [|exact N].
    cbn [FlowB.reduce FlowB.step] in H; rewrite A' in H; cbn [bind] in H.
    destruct (reduce_selects _ _ _ _ H) as [_ S'].
    destruct (S' w eq_refl) as [_ [_ J3]].
    destruct (J3 first eq_refl) as [<-|K]; [left; reflexivity|right; exact K].
  - intros items term D; unfold FlowB.findBestMatch.
    destruct (reduce_returns (toLowerCase term) items None D) as [r [E R]].
    exists r; split; [exact E|].
    rewrite R; split; [intros [_ Z]; exact Z|intro Z; split; [reflexivity|exact Z]].
  - intros s g c t input lr dr key term domain.
    apply no_match_is_fatal.
  - intros term a b q Aa Ab Ra Rb P; unfold FlowB.findBestMatch.
    cbn [FlowB.reduce FlowB.step]; rewrite Aa; cbn [bind].
    rewrite Ab, Ra, Rb; cbn [score_of FlowB.nonzero].
    rewrite (gt_lt q (inject_Z 0)) by exact P.
    replace (Qeq_bool q 0) with false; [reflexivity|].
    symmetry; apply not_true_is_false; intro E.
    apply Qeq_bool_iff in E; rewrite E in P.
    exact (Qlt_irrefl _ P).
  - intros term a b Aa Ra; unfold FlowB.findBestMatch.
    cbn [FlowB.reduce FlowB.step]; rewrite Aa; cbn [bind].
    rewrite Ra; cbn [score_of].
    destruct (FlowB.admitted b (toLowerCase term)); [|reflexivity].
    destruct (FlowB.nonzero (result_score b)); cbn [andb]; [|reflexivity].
    destruct (result_score b); reflexivity.
Qed.

Lemma flowB_gated_ranking_witness :
  FlowB.findBestMatch
    [Some Examples.globex; Some Examples.acme_minus_one;
     Some Examples.acme_five] "ACME" = OK (Some Examples.acme_five) /\
  FlowB.findBestMatch [Some Examples.acme_null; Some Examples.acme_five]
    "ACME" = OK (Some Examples.acme_five) /\
  FlowB.findBestMatch [Some Examples.acme_unscored; Some Examples.acme_five]
    "ACME" = OK (Some Examples.acme_unscored) /\
  FlowB.admitted Examples.acme_five (toLowerCase "ACME") = true /\
  FlowB.handler Examples.globex_search Examples.acme_get
    Examples.echo_completion (fun s => s) Examples.summary_input =
  Throw (Thrown "Failed to process request: No matching leads or deals found").
Proof.
  destruct flowB_gated_ranking as [G [_ [H [N U]]]].
  split; [reflexivity|].
  split; [apply (N "ACME" Examples.acme_null Examples.acme_five 5%Q);
          reflexivity|].
  split; [apply (U "ACME" Examples.acme_unscored Examples.acme_five);
          reflexivity|].
  split.
  - destruct (G [Some Examples.globex; Some Examples.acme_minus_one;
                 Some Examples.acme_five] "ACME" Examples.acme_five eq_refl)
      as [_ [A _]].
    exact A.
  - apply (H Examples.globex_search Examples.acme_get
             Examples.echo_completion (fun s => s) Examples.summary_input
             {| data := Some {| items := Some [Examples.wrapped 0.9 Examples.globex] |} |}
             {| data := Some {| items := Some [Examples.wrapped 0.9 Examples.globex] |} |});
      reflexivity.
Defined.

(** C6 as first stated fails: each list holds two hits that pass the
    gate, and the scorer returns the first although the second has the
    higher remote score: the first has none, or the second's is 0. *)
Lemma flowB_not_highest :
  FlowB.findBestMatch [Some Examples.acme_unscored; Some Examples.acme_five]
    "Acme" = OK (Some Examples.acme_unscored) /\
  FlowB.admitted Examples.acme_five (toLowerCase "Acme") = true /\
  result_score Examples.acme_unscored = None /\
  result_score Examples.acme_five = Some 5%Q /\
  FlowB.findBestMatch [Some Examples.acme_minus_one; Some Examples.acme_zero]
    "Acme" = OK (Some Examples.acme_minus_one) /\
  FlowB.admitted Examples.acme_zero (toLowerCase "Acme") = true /\
  gt (result_score Examples.acme_zero) (result_score Examples.acme_minus_one)
    = true.
Proof. repeat split. Qed.

(** * Further properties of the two actions *)

(** ** Strings *)

Lemma append_assoc (a b c : string) : (a ++ b) ++ c = a ++ b ++ c.
Proof.
  induction a as [|x a IH]; [reflexivity|].
  cbn [append]; rewrite IH; reflexivity.
Qed.

Lemma append_length (a b : string) :
  String.length (a ++ b) = String.length a + String.length b.
Proof.
  induction a as [|x a IH]; [reflexivity|].
  cbn [append String.length]; rewrite IH; reflexivity.
Qed.

Lemma substring_append (n : nat) (a b : string) :
  n <= String.length a -> substring 0 n (a ++ b) = substring 0 n a.
Proof.
  revert a; induction n as [|n IH]; intros a H.
  - destruct a, b; reflexivity.
  - destruct a as [|x a]; cbn [String.length] in H; [lia|].
    cbn [append substring]; rewrite IH; [reflexivity|lia].
Qed.

Lemma prefix_append (p s : string) : String.prefix p (p ++ s) = true.
Proof.
  induction p as [|x p IH]; [destruct s; reflexivity|].
  cbn [append String.prefix].
  destruct (ascii_dec x x) as [_|N]; [exact IH|contradiction N; reflexivity].
Qed.

Lemma includes_empty (s : string) : includes s "" = true.
Proof. destruct s; reflexivity. Qed.

Lemma prefix_refl (s : string) : String.prefix s s = true.
Proof.
  induction s as [|x s IH]; [reflexivity|].
  cbn [String.prefix].
  destruct (ascii_dec x x) as [_|N]; [exact IH|contradiction N; reflexivity].
Qed.

(** A string includes what it ends with. *)
Lemma includes_suffix (a t : string) : includes (a ++ t) t = true.
Proof.
  induction a as [|x a IH].
  - cbn [append]; destruct t as [|y t]; [reflexivity|].
    cbn [includes]; rewrite prefix_refl; reflexivity.
  - cbn [append includes]; rewrite IH; apply orb_true_r.
Qed.

Lemma truncate_length (s : string) :
  String.length (FlowA.truncate s) <= FlowA.MAX_LENGTH.
Proof.
  unfold FlowA.truncate.
  destruct (Nat.ltb_spec FlowA.MAX_LENGTH (String.length s)) as [L|L];
    [|exact L].
  rewrite substring_length; lia.
Qed.

(** ** What flow A returns *)

(** X1: the text a flow A invocation returns is never longer than 90,000
    characters. *)
Theorem handler_output_bounded
  (axios_search : Request -> result SearchResults)
  (axios_get : Request -> result value) (JSON_stringify : value -> string)
  (input : FlowA.Input) :
  match FlowA.handler axios_search axios_get JSON_stringify input with
  | OK out => String.length (textResponse out) <= 90000
  | Throw _ => True
  end.
Proof.
  rewrite handler_unfold.
  destruct (FlowA.cleaned_info _ _ _ _ _); [|exact I].
  apply truncate_length.
Qed.

Lemma instructions_prefix_length :
  String.length "Instructions for the following content: " = 40.
Proof. reflexivity. Qed.

Lemma max_length_split : 89960 + 40 = FlowA.MAX_LENGTH.
Proof. apply Nat.eqb_eq; vm_compute; reflexivity. Qed.

(** X2: instructions of 89,960 characters or more fill the whole text: what
    is returned is the first 90,000 characters of the instruction line,
    whatever the payload is. *)
Theorem long_instructions_hide_payload
  (axios_search : Request -> result SearchResults)
  (axios_get : Request -> result value) (JSON_stringify : value -> string)
  (input : FlowA.Input) (i : string) (out : OutputObject) :
  FlowA.instructions input = Some i ->
  89960 <= String.length i ->
  FlowA.handler axios_search axios_get JSON_stringify input = OK out ->
  textResponse out =
  substring 0 90000 ("Instructions for the following content: " ++ i).
Proof.
  intros E L H; apply handler_OK in H; destruct H as [c [_ ->]].
  rewrite E; unfold FlowA.with_instructions.
  pose proof max_length_split as M.
  destruct i as [|x i].
  - cbn [String.length] in L.
    assert (Z : 0 < 89960) by (apply Nat.ltb_lt; vm_compute; reflexivity).
    lia.
  - cbn [String.eqb].
    set (p := "Instructions for the following content: ") in *.
    assert (P : FlowA.MAX_LENGTH <= String.length (p ++ String x i)).
    { rewrite append_length; unfold p; rewrite instructions_prefix_length; lia. }
    rewrite <- append_assoc.
    unfold FlowA.truncate.
    destruct (Nat.ltb_spec FlowA.MAX_LENGTH
                (String.length ((p ++ String x i) ++
                   String "010" (String "010" (JSON_stringify c))))) as [K|K].
    + apply substring_append; exact P.
    + rewrite append_length in K; cbn [String.length] in K; lia.
Qed.

Lemma long_instructions_hide_payload_witness :
  exists out,
    FlowA.handler Examples.acme_search Examples.acme_get Examples.short_text
      Examples.instructed_input = OK out /\
    textResponse out =
    substring 0 90000
      ("Instructions for the following content: " ++
       Examples.long_instructions).
Proof.
  eexists; split; [reflexivity|].
  apply (long_instructions_hide_payload Examples.acme_search
           Examples.acme_get Examples.short_text Examples.instructed_input
           Examples.long_instructions _ eq_refl);
    [apply Nat.leb_le; vm_compute; reflexivity|reflexivity].
Defined.

(** X3: whatever goes wrong inside either handler reaches the caller as one
    error whose message starts with [Failed to process request: ]. *)
Theorem handler_errors_wrapped :
  (forall axios_search axios_get JSON_stringify input,
     match FlowA.handler axios_search axios_get JSON_stringify input with
     | OK _ => True
     | Throw e =>
         exists m, message e = "Failed to process request: " ++ m
     end) /\
  (forall axios_search axios_get completion trim input,
     match FlowB.handler axios_search axios_get completion trim input with
     | OK _ => True
     | Throw e =>
         exists m, message e = "Failed to process request: " ++ m
     end).
Proof.
  split.
  - intros s g J input; rewrite handler_unfold.
    destruct (FlowA.cleaned_info _ _ _ _ _) as [c|e]; [exact I|].
    exists (message e); reflexivity.
  - intros s g c t input; unfold FlowB.handler.
    change (FlowB.input_get input "pipedriveCompanyDomain")
      with (Some (FlowB.pipedriveCompanyDomain input)).
    cbn [FlowB.full_domain bind]; unfold try_catch.
    match goal with
    | |- match (match ?b with _ => _ end) with _ => _ end =>
        destruct b as [out|e]
    end; [exact I|].
    exists (message e); reflexivity.
Qed.

(** ** The score of flow A *)

(** X4: a local score of 3 does not tell a title match from a match of both
    names: the two are tied, and the remote score decides between
    them, whichever of the two has the higher one and in either order;
    when neither is higher the one that comes first is returned. *)
Theorem title_ties_with_both_names (term : string) (a b : SearchItem) :
  let matches field i :=
    FlowA.field_includes (field (FlowA.current_item i)) (toLowerCase term) in
  let org h := FlowA.name_of (organization h) in
  let per h := FlowA.name_of (person h) in
  (FlowA.local_score term a = 3%Z <->
   (matches title a = true /\ matches org a = false /\
    matches per a = false) \/
   (matches title a = false /\ matches org a = true /\
    matches per a = true)) /\
  (matches title a = true -> matches org a = false ->
   matches per a = false ->
   matches title b = false -> matches org b = true ->
   matches per b = true ->
   FlowA.findBestMatch [a; b] term =
     Some (FlowA.current_item
             (if gt (FlowA.remote_score b) (FlowA.remote_score a)
              then b else a)) /\
   FlowA.findBestMatch [b; a] term =
     Some (FlowA.current_item
             (if gt (FlowA.remote_score a) (FlowA.remote_score b)
              then a else b)) /\
   (gt (FlowA.remote_score b) (FlowA.remote_score a) = true ->
    FlowA.findBestMatch [a; b] term = Some (FlowA.current_item b) /\
    FlowA.findBestMatch [b; a] term = Some (FlowA.current_item b)) /\
   (gt (FlowA.remote_score a) (FlowA.remote_score b) = true ->
    FlowA.findBestMatch [a; b] term = Some (FlowA.current_item a) /\
    FlowA.findBestMatch [b; a] term = Some (FlowA.current_item a))).
Proof.
  intros matches org per; unfold matches, org, per; clear matches org per.
  split.
  - unfold FlowA.local_score, FlowA.score.
    destruct (FlowA.field_includes (title _) _),
      (FlowA.field_includes (FlowA.name_of (organization _)) _),
      (FlowA.field_includes (FlowA.name_of (person _)) _);
      split; intro H; try discriminate; try tauto;
      destruct H as [[? [? ?]]|[? [? ?]]]; discriminate.
  - intros Ta Oa Pa Tb Ob Pb.
    assert (La : FlowA.local_score term a = 3%Z).
    { unfold FlowA.local_score, FlowA.score; rewrite Ta, Oa, Pa; reflexivity. }
    assert (Lb : FlowA.local_score term b = 3%Z).
    { unfold FlowA.local_score, FlowA.score; rewrite Tb, Ob, Pb; reflexivity. }
    assert (AB : FlowA.findBestMatch [a; b] term =
                 Some (FlowA.current_item
                         (if gt (FlowA.remote_score b) (FlowA.remote_score a)
                          then b else a))).
    { rewrite findBestMatch_fold by discriminate; cbn [fold_left].
      rewrite step_sentinel, step_selected; unfold FlowA.beats.
      cbn [FlowA.selected FlowA.best_score FlowA.best_resultScore].
      rewrite La, Lb; cbn [Z.ltb Z.eqb Z.compare Pos.compare
                             Pos.compare_cont Pos.eqb orb andb].
      destruct (gt (FlowA.remote_score b) (FlowA.remote_score a));
        reflexivity. }
    assert (BA : FlowA.findBestMatch [b; a] term =
                 Some (FlowA.current_item
                         (if gt (FlowA.remote_score a) (FlowA.remote_score b)
                          then a else b))).
    { rewrite findBestMatch_fold by discriminate; cbn [fold_left].
      rewrite step_sentinel, step_selected; unfold FlowA.beats.
      cbn [FlowA.selected FlowA.best_score FlowA.best_resultScore].
      rewrite La, Lb; cbn [Z.ltb Z.eqb Z.compare Pos.compare
                             Pos.compare_cont Pos.eqb orb andb].
      destruct (gt (FlowA.remote_score a) (FlowA.remote_score b));
        reflexivity. }
    split; [exact AB|split; [exact BA|split]]; intro G;
      rewrite AB, BA, G, (gt_asym _ _ G); split; reflexivity.
Qed.

Lemma title_ties_with_both_names_witness :
  FlowA.local_score "Acme" Examples.title_only = 3%Z /\
  FlowA.local_score "Acme" Examples.org_and_person = 3%Z /\
  FlowA.findBestMatch [Examples.title_only; Examples.org_and_person] "Acme" =
    Some (FlowA.current_item Examples.org_and_person) /\
  FlowA.findBestMatch [Examples.org_and_person; Examples.title_only] "Acme" =
    Some (FlowA.current_item Examples.org_and_person) /\
  FlowA.findBestMatch
    [Examples.title_only_high; Examples.org_and_person] "Acme" =
    Some (FlowA.current_item Examples.title_only_high) /\
  FlowA.findBestMatch
    [Examples.org_and_person; Examples.title_only_high] "Acme" =
    Some (FlowA.current_item Examples.title_only_high).
Proof.
  destruct (title_ties_with_both_names "Acme" Examples.title_only
              Examples.org_and_person) as [_ H].
  destruct H as [_ [_ [H _]]]; try reflexivity.
  destruct (H eq_refl) as [H1 H2].
  destruct (title_ties_with_both_names "Acme" Examples.title_only_high
              Examples.org_and_person) as [_ K].
  destruct K as [_ [_ [_ K]]]; try reflexivity.
  destruct (K eq_refl) as [K1 K2].
  repeat split; assumption.
Defined.

(** X5: with an empty search term flow A scores a hit by the fields it has,
    flow B admits every hit, and so flow B returns a hit for every list
    of hits that is not empty. *)
Theorem empty_term_matches_all :
  (forall h,
     let present (field : option string) :=
       match field with Some _ => true | None => false end in
     FlowA.score h (toLowerCase "") =
     (3 * Z.b2z (present (title h)) +
      2 * Z.b2z (present (FlowA.name_of (organization h))) +
      1 * Z.b2z (present (FlowA.name_of (person h))))%Z) /\
  (forall h, FlowB.admitted h (toLowerCase "") = true) /\
  (forall h hits,
     exists w, FlowB.findBestMatch (map Some (h :: hits)) "" = OK (Some w)).
Proof.
  assert (A : forall h, FlowB.admitted h (toLowerCase "") = true).
  { intro h; unfold FlowB.admitted, FlowB.field_match.
    rewrite includes_empty; reflexivity. }
  split; [|split; [exact A|]].
  - intro h; unfold FlowA.score, FlowA.field_includes.
    destruct (title h), (FlowA.name_of (organization h)),
      (FlowA.name_of (person h)); rewrite ?includes_empty; reflexivity.
  - intros h hits.
    destruct (reduce_returns (toLowerCase "") (map Some (h :: hits)) None)
      as [r [E R]].
    { apply Forall_forall; intros o M; apply in_map_iff in M.
      destruct M as [x [<- _]]; discriminate. }
    destruct r as [w|]; [exists w; exact E|].
    destruct R as [R _]; destruct (R eq_refl) as [_ Z].
    specialize (Z h (or_introl eq_refl)); rewrite A in Z; discriminate.
Qed.

(** ** More on null pruning *)

Lemma filter_kept_all (l : list (string * value)) :
  Forall (fun kv => nullish (snd kv) = false) l ->
  filter FlowA.kept l = l.
Proof.
  intro H; apply forallb_filter_id, forallb_forall; intros kv M.
  rewrite Forall_forall in H; unfold FlowA.kept; rewrite (H kv M).
  reflexivity.
Qed.

Lemma prune_clean (v : value) :
  FlowA.null_free v = true -> FlowA.array_free v = true ->
  FlowA.prune v = v.
Proof.
  induction v using value_nested_ind; try reflexivity;
    [discriminate|]; intros N A.
  rewrite prune_Obj; f_equal.
  cbn [FlowA.null_free FlowA.array_free] in N, A.
  rewrite forallb_forall in N, A.
  rewrite filter_kept_all.
  - rewrite <- (map_id l) at 2; apply map_ext_in; intros [k x] M.
    cbn [fst snd]; f_equal.
    rewrite Forall_forall in H; apply (H (k, x) M).
    + specialize (N _ M); cbn [snd] in N.
      apply andb_true_iff in N; apply N.
    + exact (A _ M).
  - apply Forall_forall; intros kv M; specialize (N _ M).
    apply andb_true_iff in N; destruct N as [N _].
    destruct (nullish (snd kv)); [discriminate|reflexivity].
Qed.

(** X6: [removeNulls] leaves exactly those values as they are that are
    objects holding no [null], no [undefined] and no array at any
    depth. *)
Theorem removeNulls_fixed_points (v : value) :
  FlowA.removeNulls v = OK v <->
  (exists l, v = Obj l) /\
  FlowA.null_free v = true /\ FlowA.array_free v = true.
Proof.
  split.
  - intro H; destruct (entries v) as [es|e] eqn:E.
    + rewrite (removeNulls_entries v es E) in H; injection H as H.
      rewrite <- H; split; [eexists; reflexivity|split].
      * apply null_free_pruned_entries, Forall_forall; intros kv _.
        apply null_free_prune.
      * apply array_free_pruned_entries, Forall_forall; intros kv _.
        apply array_free_prune.
    + unfold FlowA.removeNulls in H; rewrite E in H; discriminate.
  - intros [[l ->] [N A]].
    rewrite removeNulls_object by reflexivity.
    rewrite (prune_clean _ N A); reflexivity.
Qed.

Lemma removeNulls_fixed_points_witness :
  FlowA.removeNulls
    (Obj [("id", Num 1); ("person", Obj [("name", Str "Ann")])]) =
  OK (Obj [("id", Num 1); ("person", Obj [("name", Str "Ann")])]).
Proof.
  apply removeNulls_fixed_points; split; [eexists; reflexivity|].
  split; reflexivity.
Defined.

Lemma lookup_absent (k : string) (l : list (string * value)) :
  ~ In k (map fst l) -> lookup k (FlowA.pruned_entries l) = Undefined.
Proof.
  induction l as [|[k' x] l IH]; intro N; [reflexivity|].
  cbn [map fst In] in N.
  unfold FlowA.pruned_entries; cbn [filter]; unfold FlowA.kept at 1.
  cbn [snd]; destruct (nullish x); cbn [negb map fst snd lookup].
  - apply IH; tauto.
  - destruct (String.eqb_spec k k') as [->|_]; [tauto|apply IH; tauto].
Qed.

(** X7: reading a property off a pruned object gives the pruned property of
    the original, and nothing where the original held [null] or
    [undefined]. *)
Theorem removeNulls_lookup (l : list (string * value)) :
  NoDup (map fst l) ->
  exists l',
    FlowA.removeNulls (Obj l) = OK (Obj l') /\
    forall k,
      lookup k l' =
      if nullish (lookup k l) then Undefined
      else FlowA.prune (lookup k l).
Proof.
  intro D; exists (FlowA.pruned_entries l); split; [reflexivity|].
  intro k; induction l as [|[k' x] l IH]; [reflexivity|].
  cbn [map fst] in D; inversion D as [|? ? N D']; subst.
  cbn [lookup]; destruct (String.eqb_spec k k') as [->|K].
  - unfold FlowA.pruned_entries; cbn [filter]; unfold FlowA.kept at 1.
    cbn [snd]; destruct (nullish x) eqn:E; cbn [negb map fst snd lookup].
    + apply lookup_absent; exact N.
    + rewrite String.eqb_refl; reflexivity.
  - rewrite <- (IH D').
    unfold FlowA.pruned_entries; cbn [filter]; unfold FlowA.kept at 1.
    cbn [snd]; destruct (nullish x); cbn [negb map fst snd lookup];
      [reflexivity|].
    destruct (String.eqb_spec k k') as [->|_]; [contradiction|reflexivity].
Qed.

Lemma removeNulls_lookup_witness :
  exists l',
    FlowA.removeNulls (Obj Examples.sparse_object) = OK (Obj l') /\
    lookup "id" l' = Num 1 /\
    lookup "owner" l' = Undefined /\
    lookup "tags" l' = Obj [("0", Str "a")] /\
    lookup "note" l' = Undefined.
Proof.
  destruct (removeNulls_lookup Examples.sparse_object) as [l' [E L]].
  - repeat constructor; cbn; intuition discriminate.
  - exists l'; split; [exact E|].
    rewrite !L; repeat split.
Defined.

(** ** The branches of flow A *)

Lemma findBestMatch_nonempty (items : list SearchItem) (term : string) :
  items <> [] ->
  exists w, In w items /\
            FlowA.findBestMatch items term = Some (FlowA.current_item w).
Proof.
  intro N; destruct (fold_stands_at term items N) as [k [w [E [S _]]]].
  exists w; split; [exact (nth_error_In _ _ S)|].
  rewrite findBestMatch_fold, E by exact N; reflexivity.
Qed.

Lemma data_or_empty_truthy (body d : value) :
  FlowA.data_or_empty body = OK d -> truthy d = true.
Proof.
  unfold FlowA.data_or_empty; intro H; apply bind_OK in H.
  destruct H as [x [_ H]]; injection H as <-.
  destruct (truthy x) eqn:E; [exact E|reflexivity].
Qed.

Section FlowA_branches.

Variable axios_search : Request -> result SearchResults.
Variable axios_get : Request -> result value.
Variable JSON_stringify : value -> string.

Local Abbreviation handler :=
  (FlowA.handler axios_search axios_get JSON_stringify).
Local Abbreviation key input := (Some (FlowA.pipedriveApiKey input)).
Local Abbreviation term input := (Some (FlowA.searchTerm input)).
Local Abbreviation domain := (FlowA.full_domain None).
Local Abbreviation cleaned_info input :=
  (FlowA.cleaned_info axios_search axios_get (key input) domain (term input)).

Lemma getLeadInfo_returns (apiKey : option string)
  (companyDomain : string) (leadId : option ident) (v : value) :
  FlowA.getLeadInfo axios_get apiKey companyDomain leadId = OK v ->
  exists lead activities notes,
    v = Obj [("lead", lead); ("activities", activities); ("notes", notes)] /\
    truthy activities = true /\ truthy notes = true.
Proof.
  unfold FlowA.getLeadInfo.
  destruct (axios_get (FlowA.detail_request apiKey _ [])) as [leadInfo|];
    cbn [bind try_catch]; [|discriminate].
  match goal with
  | |- context [try_catch ?b (fun _ => OK (Arr []))] =>
      assert (A : exists a, try_catch b (fun _ => OK (Arr [])) = OK a /\
                            truthy a = true)
  end.
  { destruct (axios_get _) as [r|]; cbn [bind try_catch]; [|eauto].
    destruct (FlowA.data_or_empty r) as [d|] eqn:E; cbn [try_catch];
      [|eauto].
    exists d; split; [reflexivity|exact (data_or_empty_truthy _ _ E)]. }
  destruct A as [a [-> Ta]]; cbn [bind].
  match goal with
  | |- context [try_catch ?b (fun _ => OK (Arr []))] =>
      assert (N : exists n, try_catch b (fun _ => OK (Arr [])) = OK n /\
                            truthy n = true)
  end.
  { destruct (axios_get _) as [r|]; cbn [bind try_catch]; [|eauto].
    destruct (FlowA.data_or_empty r) as [d|] eqn:E; cbn [try_catch];
      [|eauto].
    exists d; split; [reflexivity|exact (data_or_empty_truthy _ _ E)]. }
  destruct N as [n [-> Tn]]; cbn [bind].
  destruct (prop leadInfo "data") as [lead|]; cbn [bind try_catch];
    [|discriminate].
  intro H; injection H as <-; eauto 7.
Qed.

(** X8: the attachments of a lead are never [null]: what [getLeadInfo]
    returns holds a truthy value, an empty list at the least, under
    [activities] and under [notes]. *)
Theorem getLeadInfo_attachments (apiKey : option string)
  (companyDomain : string) (leadId : option ident) (v : value) :
  FlowA.getLeadInfo axios_get apiKey companyDomain leadId = OK v ->
  exists lead activities notes,
    v = Obj [("lead", lead); ("activities", activities); ("notes", notes)] /\
    truthy activities = true /\ truthy notes = true.
Proof. exact (getLeadInfo_returns apiKey companyDomain leadId v). Qed.

(** X9: when the deal search yields no hit, be it that it failed, and the
    lead search returns hits, the lead branch is taken: the request
    stands or falls with the detail of the best lead, and the payload
    carries [bestMatch.type = "lead"] and the two counts, 0 deals for a
    failed deal search. *)
Theorem lead_branch_second (input : FlowA.Input)
  (dealResults : SearchResults) (leadItems : list SearchItem) (lead : Hit) :
  FlowA.searchPipedriveDeal axios_search (key input) domain (term input) =
    OK dealResults ->
  positive (items_length dealResults) = false ->
  axios_search (FlowA.lead_search_request (key input) domain (term input)) =
    OK {| data := Some {| items := Some leadItems |} |} ->
  FlowA.findBestMatch leadItems (FlowA.searchTerm input) = Some lead ->
  let payload d :=
    Obj [("searchTerm", Str (FlowA.searchTerm input));
         ("leadsFound", of_nat (List.length leadItems));
         ("dealsFound", of_nat (or_zero (items_length dealResults)));
         ("bestMatch", Obj [("type", Str "lead");
                            ("data", FlowA.prune d)])] in
  cleaned_info input =
    (d <- FlowA.getLeadInfo axios_get (key input) domain (id lead) ;;
     OK (payload d)) /\
  handler input =
    match FlowA.getLeadInfo axios_get (key input) domain (id lead) with
    | OK d =>
        OK {| textResponse :=
                FlowA.truncate
                  (FlowA.with_instructions (FlowA.instructions input)
                     (JSON_stringify (payload d))) |}
    | Throw error =>
        Throw (Thrown ("Failed to process request: " ++ message error))
    end.
Proof.
  intros D P L B payload.
  assert (C : cleaned_info input =
              (d <- FlowA.getLeadInfo axios_get (key input) domain
                      (id lead) ;;
               OK (payload d))).
  { assert (N : leadItems <> []) by (intros ->; discriminate).
    unfold FlowA.cleaned_info, FlowA.searchPipedriveLead.
    rewrite L, D; cbn [try_catch bind].
    rewrite (best_of_no_hit dealResults _ P); cbn [bind].
    rewrite (best_of_items leadItems _ N), B; cbn [bind].
    destruct (FlowA.getLeadInfo axios_get _ _ _) as [d|e] eqn:G;
      cbn [bind]; [|reflexivity].
    destruct (getLeadInfo_returns _ _ _ _ G) as [x [y [z [-> _]]]].
    rewrite removeNulls_object by reflexivity; reflexivity. }
  split; [exact C|].
  rewrite handler_unfold, C.
  destruct (FlowA.getLeadInfo axios_get _ _ _); reflexivity.
Qed.

Lemma best_of_cases (r : SearchResults) (t : string) :
  (exists h items,
     data_items r = Some items /\ items <> [] /\
     FlowA.best_of r (Some t) = OK (Some h)) \/
  (positive (items_length r) = false /\
   FlowA.best_of r (Some t) = OK None).
Proof.
  unfold FlowA.best_of, items_length.
  destruct (data_items r) as [[|x l]|]; cbn [option_map positive List.length];
    [right; split; reflexivity| |right; split; reflexivity].
  left; cbn [Nat.ltb Nat.leb FlowA.call_findBestMatch].
  destruct (findBestMatch_nonempty (x :: l) t) as [w [_ E]]; [discriminate|].
  exists (FlowA.current_item w), (x :: l).
  repeat split; [discriminate|rewrite E; reflexivity].
Qed.

Lemma closest_no_hit (r : SearchResults) (v : value) :
  positive (items_length r) = false -> FlowA.closest r = OK v ->
  v = Arr [] /\ items_length r = Some 0.
Proof.
  unfold FlowA.closest, items_length, data_items.
  destruct (data r) as [d|]; [|discriminate].
  destruct (items d) as [[|x l]|]; cbn [option_map positive List.length];
    [|discriminate|discriminate].
  intros _ H; injection H as <-; split; reflexivity.
Qed.

(** X10: the payload of flow A has one of two shapes: a best match of type
    [deal] or [lead] with its detail, or the no-match message with both
    counts 0 and two empty collections of closest matches: the no-match
    branch is only reached when neither search returned an item, so no
    closest match is ever listed. *)
Theorem payload_shapes (input : FlowA.Input) :
  match cleaned_info input with
  | OK v =>
      (exists kind n m d,
         (kind = "deal" \/ kind = "lead") /\
         v = Obj [("searchTerm", Str (FlowA.searchTerm input));
                  ("leadsFound", of_nat n);
                  ("dealsFound", of_nat m);
                  ("bestMatch", Obj [("type", Str kind); ("data", d)])]) \/
      v = Obj [("searchTerm", Str (FlowA.searchTerm input));
               ("leadsFound", of_nat 0);
               ("dealsFound", of_nat 0);
               ("message", Str "No exact matches found.");
               ("closestMatches", Obj [("deals", Obj []); ("leads", Obj [])])]
  | Throw _ => True
  end.
Proof.
  unfold FlowA.cleaned_info.
  destruct (FlowA.searchPipedriveLead _ _ _ _) as [lr|]; cbn [bind];
    [|exact I].
  destruct (FlowA.searchPipedriveDeal _ _ _ _) as [dr|]; cbn [bind];
    [|exact I].
  destruct (best_of_cases dr (FlowA.searchTerm input))
    as [[deal [ditems [_ [_ ->]]]]|[Pd ->]]; cbn [bind].
  - destruct (best_of_cases lr (FlowA.searchTerm input))
      as [[lead [litems [_ [_ ->]]]]|[_ ->]]; cbn [bind];
      (destruct (FlowA.getDealInfo axios_get _ _ _) as [d|] eqn:G;
       cbn [bind]; [|exact I];
       destruct (getDealInfo_object _ _ _ _ _ G) as [x [y [z ->]]];
       rewrite removeNulls_object by reflexivity;
       left; do 4 eexists; split; [left; reflexivity|reflexivity]).
  - destruct (best_of_cases lr (FlowA.searchTerm input))
      as [[lead [litems [_ [_ ->]]]]|[Pl ->]]; cbn [bind].
    + destruct (FlowA.getLeadInfo axios_get _ _ _) as [d|] eqn:G;
        cbn [bind]; [|exact I].
      destruct (getLeadInfo_returns _ _ _ _ G) as [x [y [z [-> _]]]].
      rewrite removeNulls_object by reflexivity.
      left; do 4 eexists; split; [right; reflexivity|reflexivity].
    + destruct (FlowA.closest dr) as [deals|] eqn:Cd; cbn [bind]; [|exact I].
      destruct (FlowA.closest lr) as [leads|] eqn:Cl; cbn [bind]; [|exact I].
      destruct (closest_no_hit _ _ Pd Cd) as [-> ->].
      destruct (closest_no_hit _ _ Pl Cl) as [-> ->].
      right; reflexivity.
Qed.

(** X11: a lead search that fails counts as one that finds nothing: the
    handler returns what it returns when the lead search answers with an
    empty list. *)
Theorem lead_failure_as_empty
  (other_search : Request -> result SearchResults) (input : FlowA.Input)
  (e : exn) :
  axios_search (FlowA.lead_search_request (key input) domain (term input)) =
    Throw e ->
  other_search (FlowA.lead_search_request (key input) domain (term input)) =
    OK {| data := Some {| items := Some [] |} |} ->
  other_search (FlowA.deal_search_request (key input) domain (term input)) =
  axios_search (FlowA.deal_search_request (key input) domain (term input)) ->
  handler input =
  FlowA.handler other_search axios_get JSON_stringify input.
Proof.
  intros L L' D; rewrite !handler_unfold.
  unfold FlowA.cleaned_info, FlowA.searchPipedriveLead,
    FlowA.searchPipedriveDeal.
  rewrite L, L', D; reflexivity.
Qed.

End FlowA_branches.

Lemma getLeadInfo_attachments_witness :
  exists lead activities notes,
    FlowA.getLeadInfo Examples.acme_get (Some "0123456789abcdef")
      "acme.pipedrive.com" (Some (IdStr "7f3a")) =
    OK (Obj [("lead", lead); ("activities", activities); ("notes", notes)]) /\
    truthy activities = true /\ notes = Arr [].
Proof.
  destruct (getLeadInfo_attachments Examples.acme_get
              (Some "0123456789abcdef") "acme.pipedrive.com"
              (Some (IdStr "7f3a")) _ eq_refl)
    as [lead [a [n [E [Ta Tn]]]]].
  injection E as <- <- <-.
  do 3 eexists; split; [reflexivity|split; [exact Ta|reflexivity]].
Defined.

Lemma lead_branch_second_witness :
  FlowA.cleaned_info Examples.lead_only_search Examples.acme_get
    (Some "0123456789abcdef") (FlowA.full_domain None) (Some "Acme Corp") =
  OK (Obj [("searchTerm", Str "Acme Corp");
           ("leadsFound", of_nat 1);
           ("dealsFound", of_nat 0);
           ("bestMatch",
            Obj [("type", Str "lead");
                 ("data",
                  Obj [("lead", Obj [("id", Num 42);
                                     ("title", Str "Acme Corp Renewal")]);
                       ("activities",
                        Obj [("0", Obj [("id", Num 7);
                                        ("subject", Str "Call")])]);
                       ("notes", Obj [])])])]).
Proof.
  destruct (lead_branch_second Examples.lead_only_search Examples.acme_get
              Examples.short_text Examples.acme_input
              {| data := Some {| items := None |} |}
              [Examples.acme_lead] (FlowA.current_item Examples.acme_lead)
              eq_refl eq_refl eq_refl eq_refl) as [C _].
  exact C.
Defined.

Lemma lead_failure_as_empty_witness :
  FlowA.handler Examples.deal_only_search Examples.acme_get
    Examples.short_text Examples.acme_input =
  FlowA.handler Examples.deal_and_no_lead_search Examples.acme_get
    Examples.short_text Examples.acme_input.
Proof.
  apply (lead_failure_as_empty Examples.deal_only_search Examples.acme_get
           Examples.short_text Examples.deal_and_no_lead_search
           Examples.acme_input
           (Thrown "Request failed with status code 500"));
    reflexivity.
Defined.

(** ** More on flow B *)

(** X12: the host of flow B always contains [.pipedrive.com]: a domain that
    contains it anywhere is taken as it is, any other gets it appended,
    and a host so formed is taken as it is when passed again. *)
Theorem flowB_host (d : string) :
  exists host,
    FlowB.full_domain (Some d) = OK host /\
    includes host ".pipedrive.com" = true /\
    FlowB.full_domain (Some host) = OK host /\
    (includes d ".pipedrive.com" = true -> host = d) /\
    (includes d ".pipedrive.com" = false -> host = d ++ ".pipedrive.com").
Proof.
  cbn [FlowB.full_domain].
  destruct (includes d ".pipedrive.com") eqn:E; eexists;
    (split; [reflexivity|]).
  - split; [exact E|split; [rewrite E; reflexivity|split]];
      [intros _; reflexivity|discriminate].
  - split; [apply includes_suffix|split; [|split]];
      [rewrite includes_suffix; reflexivity|discriminate
      |intros _; reflexivity].
Qed.

Lemma flowB_host_witness :
  FlowB.full_domain (Some "acme") = OK "acme.pipedrive.com" /\
  FlowB.full_domain (Some "acme.pipedrive.com") = OK "acme.pipedrive.com".
Proof.
  destruct (flowB_host "acme") as [host [E [_ [F [_ A]]]]].
  rewrite (A eq_refl) in E, F; split; [exact E|exact F].
Defined.

Lemma step_defined (lower : string) (best : option Hit) (c : Hit) :
  exists best', FlowB.step lower best (Some c) = OK best'.
Proof.
  cbn [FlowB.step]; destruct (FlowB.admitted c lower); [|eauto].
  destruct best as [b|]; [|eauto].
  destruct (_ && _); eauto.
Qed.

Lemma reduce_undefined (lower : string) (items : list (option Hit))
  (best : option Hit) :
  In None items ->
  FlowB.reduce lower items best = Throw (cannot_read "undefined" "title").
Proof.
  revert best; induction items as [|o items IH]; intros best M;
    [contradiction|].
  cbn [FlowB.reduce]; destruct o as [c|]; [|reflexivity].
  destruct (step_defined lower best c) as [best' ->]; cbn [bind].
  destruct M as [M|M]; [discriminate|exact (IH best' M)].
Qed.

Lemma reduce_filter (lower : string) (items : list (option Hit))
  (best : option Hit) :
  FlowB.reduce lower
    (filter (fun o => match o with
                      | Some h => FlowB.admitted h lower
                      | None => true
                      end) items) best =
  FlowB.reduce lower items best.
Proof.
  revert best; induction items as [|o items IH]; intro best; [reflexivity|].
  cbn [filter]; destruct o as [c|].
  - destruct (FlowB.admitted c lower) eqn:A.
    + cbn [FlowB.reduce]; destruct (FlowB.step lower best (Some c));
        cbn [bind]; [apply IH|reflexivity].
    + cbn [FlowB.reduce FlowB.step]; rewrite A; cbn [bind]; apply IH.
  - reflexivity.
Qed.

(** X13: hits that fail the gate of flow B have no part in the outcome: the
    scorer returns the same on the list without them. *)
Theorem flowB_ignores_unmatched (items : list (option Hit)) (term : string) :
  FlowB.findBestMatch
    (filter (fun o => match o with
                      | Some h => FlowB.admitted h (toLowerCase term)
                      | None => true
                      end) items) term =
  FlowB.findBestMatch items term.
Proof. exact (reduce_filter (toLowerCase term) items None). Qed.

Section FlowB_branches.

Variable axios_search : Request -> result SearchResults.
Variable axios_get : Request -> result value.
Variable completion :
  option string -> option string -> FlowB.SummaryData -> result (option string).
Variable trim : string -> string.

Local Abbreviation handler :=
  (FlowB.handler axios_search axios_get completion trim).
Local Abbreviation key input := (Some (FlowB.pipedriveApiKey input)).
Local Abbreviation term input := (Some (FlowB.searchTerm input)).
Local Abbreviation domain input :=
  (if includes (FlowB.pipedriveCompanyDomain input) ".pipedrive.com"
   then FlowB.pipedriveCompanyDomain input
   else FlowB.pipedriveCompanyDomain input ++ ".pipedrive.com").
Local Abbreviation generateSummary input :=
  (FlowB.generateSummary completion trim
     (Some (FlowB.openaiApiKey input)) (Some (FlowB.openaiModel input))).
Local Abbreviation wrap :=
  (fun error : exn =>
     @Throw OutputObject
       (Thrown ("Failed to process request: " ++ message error))).

(** The handler of flow B, with its input destructured and the two
    searches done. *)
Lemma flowB_handler_unfold (input : FlowB.Input)
  (leadResults dealResults : SearchResults) :
  FlowB.searchPipedriveLead axios_search (key input) (domain input)
    (term input) = OK leadResults ->
  FlowB.searchPipedriveDeal axios_search (key input) (domain input)
    (term input) = OK dealResults ->
  handler input =
  try_catch
    (bestLead <- FlowB.best_of leadResults (term input) ;;
     bestDeal <- FlowB.best_of dealResults (term input) ;;
     let otherwise :=
       match bestDeal with
       | Some deal =>
           activities <-
             FlowB.getActivitiesForDeal axios_get (key input) (domain input)
               (id deal) ;;
           OK (FlowB.DealSummary deal activities)
       | None => Throw (Thrown "No matching leads or deals found")
       end in
     summaryData <-
       match bestLead with
       | Some lead =>
           if FlowB.lead_preferred lead bestDeal
           then OK (FlowB.LeadSummary lead)
           else otherwise
       | None => otherwise
       end ;;
     summary <- generateSummary input summaryData ;;
     OK {| textResponse := summary |})
    wrap.
Proof.
  intros L D; unfold FlowB.handler.
  change (FlowB.input_get input "pipedriveCompanyDomain")
    with (Some (FlowB.pipedriveCompanyDomain input)).
  change (FlowB.input_get input "pipedriveApiKey") with (key input).
  change (FlowB.input_get input "searchTerm") with (term input).
  change (FlowB.input_get input "openaiApiKey")
    with (Some (FlowB.openaiApiKey input)).
  change (FlowB.input_get input "openaiModel")
    with (Some (FlowB.openaiModel input)).
  cbn [FlowB.full_domain bind].
  rewrite L, D; reflexivity.
Qed.

(** X14: a search item that is not wrapped under [item] makes flow B fail:
    the scorer reads [title] of [undefined]. *)
Theorem flowB_unwrapped_item_throws (input : FlowB.Input)
  (leadItems : list SearchItem) (i : SearchItem) :
  axios_search
    (FlowB.search_request "leads" (key input) (domain input) (term input)) =
    OK {| data := Some {| items := Some leadItems |} |} ->
  In i leadItems -> item i = None ->
  FlowB.findBestMatch (map item leadItems) (FlowB.searchTerm input) =
    Throw (Thrown "Cannot read properties of undefined (reading 'title')") /\
  handler input =
    Throw (Thrown "Failed to process request: Cannot read properties of undefined (reading 'title')").
Proof.
  intros L M N.
  assert (F : FlowB.findBestMatch (map item leadItems)
                (FlowB.searchTerm input) =
              Throw (cannot_read "undefined" "title")).
  { apply reduce_undefined; rewrite <- N; apply in_map; exact M. }
  split; [exact F|].
  assert (D : exists dr,
            FlowB.searchPipedriveDeal axios_search (key input)
              (domain input) (term input) = OK dr).
  { unfold FlowB.searchPipedriveDeal.
    destruct (axios_search (FlowB.search_request "deals" _ _ _));
      eexists; reflexivity. }
  destruct D as [dr D].
  rewrite (flowB_handler_unfold input
             {| data := Some {| items := Some leadItems |} |} dr);
    [|unfold FlowB.searchPipedriveLead; rewrite L; reflexivity|exact D].
  unfold FlowB.best_of at 1; cbn [data_items data items].
  rewrite F; reflexivity.
Qed.

(** X15: a deal search that fails leaves the decision to the leads: the best
    lead is summarized, and without one the request fails for want of a
    match, not for the failed search. *)
Theorem flowB_deal_failure_masked (input : FlowB.Input)
  (leadResults : SearchResults) (e : exn) :
  FlowB.searchPipedriveLead axios_search (key input) (domain input)
    (term input) = OK leadResults ->
  axios_search
    (FlowB.search_request "deals" (key input) (domain input) (term input)) =
    Throw e ->
  handler input =
  try_catch
    (bestLead <- FlowB.best_of leadResults (term input) ;;
     match bestLead with
     | Some lead =>
         summary <- generateSummary input (FlowB.LeadSummary lead) ;;
         OK {| textResponse := summary |}
     | None => Throw (Thrown "No matching leads or deals found")
     end)
    wrap.
Proof.
  intros L D.
  rewrite (flowB_handler_unfold input leadResults
             {| data := Some {| items := None |} |});
    [|exact L|unfold FlowB.searchPipedriveDeal; rewrite D; reflexivity].
  destruct (FlowB.best_of leadResults _) as [[lead|]|]; reflexivity.
Qed.

(** X16: when both collections yield a best hit, the lead is summarized if
    its remote score is above the deal's, and the deal, with its
    activities, otherwise: so the deal whenever one of the two hits has
    no remote score at all, while a deal whose remote score is [null]
    counts as 0 and gives way to a lead with a positive score. *)
Theorem flowB_branch_choice (input : FlowB.Input)
  (leadResults dealResults : SearchResults) (lead deal : Hit) :
  FlowB.searchPipedriveLead axios_search (key input) (domain input)
    (term input) = OK leadResults ->
  FlowB.searchPipedriveDeal axios_search (key input) (domain input)
    (term input) = OK dealResults ->
  FlowB.best_of leadResults (term input) = OK (Some lead) ->
  FlowB.best_of dealResults (term input) = OK (Some deal) ->
  handler input =
  try_catch
    (if gt (result_score lead) (result_score deal)
     then
       summary <- generateSummary input (FlowB.LeadSummary lead) ;;
       OK {| textResponse := summary |}
     else
       activities <-
         FlowB.getActivitiesForDeal axios_get (key input) (domain input)
           (id deal) ;;
       summary <-
         generateSummary input (FlowB.DealSummary deal activities) ;;
       OK {| textResponse := summary |})
    wrap /\
  (result_score lead = score_of Undefined \/
   result_score deal = score_of Undefined ->
   gt (result_score lead) (result_score deal) = false) /\
  (forall q, result_score lead = score_of (Num q) -> (0 < q)%Q ->
             result_score deal = score_of Null ->
             gt (result_score lead) (result_score deal) = true) /\
  (forall q, result_score lead = score_of Null ->
             result_score deal = score_of (Num q) ->
             gt (result_score lead) (result_score deal) =
             negb (Qle_bool 0 q)).
Proof.
  intros L D BL BD; split; [|split; [|split]].
  - rewrite (flowB_handler_unfold input leadResults dealResults L D).
    rewrite BL, BD; cbn [bind FlowB.lead_preferred].
    destruct (gt (result_score lead) (result_score deal)); [reflexivity|].
    destruct (FlowB.getActivitiesForDeal _ _ _ _); reflexivity.
  - intros [-> | ->]; [reflexivity|].
    destruct (result_score lead); reflexivity.
  - intros q -> P ->; exact (gt_lt q (inject_Z 0) P).
  - intros q -> ->; reflexivity.
Qed.

(** Fetching the activities of a deal never fails: a failed request, or
    a body that is [null], gives the empty list, every other body what
    it holds under [data]. *)
Lemma getActivitiesForDeal_never_throws (apiKey : option string)
  (companyDomain : string) (dealId : option ident) :
  let request :=
    {| url := ("https://" ++ companyDomain ++ "/api/v1") ++ "/deals/" ++
              ident_string dealId ++ "/activities";
       headers := FlowB.api_headers apiKey;
       params := [("limit", Num (inject_Z 5));
                  ("sort", Str "due_date DESC")] |} in
  FlowB.getActivitiesForDeal axios_get apiKey companyDomain dealId =
  OK (match axios_get request with
      | OK body => match prop body "data" with
                   | OK d => d
                   | Throw _ => Arr []
                   end
      | Throw _ => Arr []
      end).
Proof.
  intro request; unfold FlowB.getActivitiesForDeal.
  fold request; destruct (axios_get request) as [body|]; [|reflexivity].
  cbn [bind]; destruct (prop body "data"); reflexivity.
Qed.

(** X17: in flow B a failed fetch of the activities does not fail the
    request: whenever the deal is the one summarized, be it that there
    is no best lead or that the best lead's remote score is not above
    the deal's, it is summarized with an empty list of activities. *)
Theorem flowB_activities_failure_masked (input : FlowB.Input)
  (leadResults dealResults : SearchResults) (bestLead : option Hit)
  (deal : Hit) (e : exn) :
  FlowB.searchPipedriveLead axios_search (key input) (domain input)
    (term input) = OK leadResults ->
  FlowB.searchPipedriveDeal axios_search (key input) (domain input)
    (term input) = OK dealResults ->
  FlowB.best_of leadResults (term input) = OK bestLead ->
  FlowB.best_of dealResults (term input) = OK (Some deal) ->
  (forall lead, bestLead = Some lead ->
     gt (result_score lead) (result_score deal) = false) ->
  axios_get
    {| url := ("https://" ++ domain input ++ "/api/v1") ++ "/deals/" ++
              ident_string (id deal) ++ "/activities";
       headers := FlowB.api_headers (key input);
       params := [("limit", Num (inject_Z 5));
                  ("sort", Str "due_date DESC")] |} = Throw e ->
  handler input =
  try_catch
    (summary <- generateSummary input (FlowB.DealSummary deal (Arr [])) ;;
     OK {| textResponse := summary |})
    wrap.
Proof.
  intros L D BL BD P A.
  rewrite (flowB_handler_unfold input leadResults dealResults L D).
  rewrite BL, BD; cbn [bind].
  rewrite getActivitiesForDeal_never_throws; cbv zeta.
  rewrite A.
  destruct bestLead as [lead|]; [|reflexivity].
  cbn [FlowB.lead_preferred]; rewrite (P lead eq_refl); reflexivity.
Qed.

Lemma generateSummary_outcomes (apiKey model : option string)
  (data : FlowB.SummaryData) :
  FlowB.generateSummary completion trim apiKey model data =
  match completion apiKey model data with
  | OK (Some content) =>
      if String.eqb content ""
      then Throw (Thrown "Failed to generate summary: No summary generated")
      else OK (trim content)
  | OK None =>
      Throw (Thrown "Failed to generate summary: No summary generated")
  | Throw e =>
      Throw (Thrown ("Failed to generate summary: " ++ message e))
  end.
Proof.
  unfold FlowB.generateSummary.
  destruct (completion apiKey model data) as [[c|]|]; cbn [bind];
    [|reflexivity|reflexivity].
  destruct (String.eqb c ""); reflexivity.
Qed.

(** X18: with a best lead and no best deal the request returns the trimmed
    content of the completion; a completion without content, or with
    empty content, fails it with [Failed to process request: Failed to
    generate summary: No summary generated], a failed completion call
    with its own message behind the two prefixes. *)
Theorem flowB_summary_outcomes (input : FlowB.Input)
  (leadResults dealResults : SearchResults) (lead : Hit) :
  FlowB.searchPipedriveLead axios_search (key input) (domain input)
    (term input) = OK leadResults ->
  FlowB.searchPipedriveDeal axios_search (key input) (domain input)
    (term input) = OK dealResults ->
  FlowB.best_of leadResults (term input) = OK (Some lead) ->
  FlowB.best_of dealResults (term input) = OK None ->
  handler input =
  match completion (Some (FlowB.openaiApiKey input))
          (Some (FlowB.openaiModel input)) (FlowB.LeadSummary lead) with
  | OK (Some content) =>
      if String.eqb content ""
      then Throw (Thrown "Failed to process request: Failed to generate summary: No summary generated")
      else OK {| textResponse := trim content |}
  | OK None =>
      Throw (Thrown "Failed to process request: Failed to generate summary: No summary generated")
  | Throw e =>
      Throw (Thrown ("Failed to process request: Failed to generate summary: "
                     ++ message e))
  end.
Proof.
  intros L D BL BD.
  rewrite (flowB_handler_unfold input leadResults dealResults L D).
  rewrite BL, BD; cbn [bind FlowB.lead_preferred].
  rewrite generateSummary_outcomes.
  destruct (completion _ _ _) as [[c|]|e]; [|reflexivity|].
  - destruct (String.eqb c ""); reflexivity.
  - cbn [bind try_catch message]; rewrite <- append_assoc; reflexivity.
Qed.

End FlowB_branches.

Lemma flowB_unwrapped_item_throws_witness :
  FlowB.handler Examples.flat_search Examples.acme_get
    Examples.echo_completion (fun s => s) Examples.summary_input =
  Throw (Thrown "Failed to process request: Cannot read properties of undefined (reading 'title')").
Proof.
  destruct (flowB_unwrapped_item_throws Examples.flat_search
              Examples.acme_get Examples.echo_completion (fun s => s)
              Examples.summary_input [Examples.flat Examples.acme_five]
              (Examples.flat Examples.acme_five) eq_refl
              (or_introl eq_refl) eq_refl) as [_ H].
  exact H.
Defined.

Lemma flowB_deal_failure_masked_witness :
  FlowB.handler Examples.lead_only_search Examples.acme_get
    Examples.kind_completion Examples.trim_front Examples.summary_input =
  OK {| textResponse := "lead " |}.
Proof.
  rewrite (flowB_deal_failure_masked Examples.lead_only_search
             Examples.acme_get Examples.kind_completion Examples.trim_front
             Examples.summary_input
             {| data := Some {| items := Some [Examples.acme_lead] |} |}
             (Thrown "Request failed with status code 500")
             eq_refl eq_refl).
  reflexivity.
Defined.

Lemma flowB_branch_choice_witness :
  FlowB.handler Examples.unscored_search Examples.acme_get
    Examples.kind_completion Examples.trim_front Examples.summary_input =
  OK {| textResponse := "deal " |} /\
  FlowB.handler Examples.scored_search Examples.acme_get
    Examples.kind_completion Examples.trim_front Examples.summary_input =
  OK {| textResponse := "lead " |} /\
  FlowB.handler Examples.null_deal_search Examples.acme_get
    Examples.kind_completion Examples.trim_front Examples.summary_input =
  OK {| textResponse := "lead " |}.
Proof.
  split; [|split].
  - destruct (flowB_branch_choice Examples.unscored_search Examples.acme_get
                Examples.kind_completion Examples.trim_front
                Examples.summary_input
                {| data := Some {| items :=
                     Some [Examples.wrapped 0.9 Examples.acme_five] |} |}
                {| data := Some {| items :=
                     Some [Examples.wrapped 0.9 Examples.acme_unscored] |} |}
                Examples.acme_five Examples.acme_unscored
                eq_refl eq_refl eq_refl eq_refl) as [H [G _]].
    rewrite H, (G (or_intror eq_refl)); reflexivity.
  - destruct (flowB_branch_choice Examples.scored_search Examples.acme_get
                Examples.kind_completion Examples.trim_front
                Examples.summary_input
                {| data := Some {| items :=
                     Some [Examples.wrapped 0.9 Examples.acme_five] |} |}
                {| data := Some {| items :=
                     Some [Examples.wrapped 0.9 Examples.acme_minus_one] |} |}
                Examples.acme_five Examples.acme_minus_one
                eq_refl eq_refl eq_refl eq_refl) as [H _].
    rewrite H; reflexivity.
  - destruct (flowB_branch_choice Examples.null_deal_search
                Examples.acme_get Examples.kind_completion
                Examples.trim_front Examples.summary_input
                {| data := Some {| items :=
                     Some [Examples.wrapped 0.9 Examples.acme_five] |} |}
                {| data := Some {| items :=
                     Some [Examples.wrapped 0.9 Examples.acme_null] |} |}
                Examples.acme_five Examples.acme_null
                eq_refl eq_refl eq_refl eq_refl) as [H [_ [G _]]].
    rewrite H, (G 5%Q eq_refl eq_refl eq_refl); reflexivity.
Defined.

Lemma flowB_summary_outcomes_witness :
  FlowB.handler Examples.lead_only_search Examples.acme_get
    Examples.empty_completion Examples.trim_front Examples.summary_input =
  Throw (Thrown "Failed to process request: Failed to generate summary: No summary generated") /\
  FlowB.handler Examples.lead_only_search Examples.acme_get
    Examples.failing_completion Examples.trim_front Examples.summary_input =
  Throw (Thrown "Failed to process request: Failed to generate summary: 401 Incorrect API key provided").
Proof.
  split.
  - rewrite (flowB_summary_outcomes Examples.lead_only_search
               Examples.acme_get Examples.empty_completion
               Examples.trim_front Examples.summary_input
               {| data := Some {| items := Some [Examples.acme_lead] |} |}
               {| data := Some {| items := None |} |}
               (FlowA.current_item Examples.acme_lead)
               eq_refl eq_refl eq_refl eq_refl).
    reflexivity.
  - rewrite (flowB_summary_outcomes Examples.lead_only_search
               Examples.acme_get Examples.failing_completion
               Examples.trim_front Examples.summary_input
               {| data := Some {| items := Some [Examples.acme_lead] |} |}
               {| data := Some {| items := None |} |}
               (FlowA.current_item Examples.acme_lead)
               eq_refl eq_refl eq_refl eq_refl).
    reflexivity.
Defined.

Lemma reduce_unscored_keeps (lower : string) (hits : list Hit) (b : Hit) :
  (forall h, In h hits -> result_score h = None) ->
  FlowB.reduce lower (map Some hits) (Some b) = OK (Some b).
Proof.
  induction hits as [|h hits IH]; intro N; [reflexivity|].
  cbn [map FlowB.reduce FlowB.step].
  rewrite (N h (or_introl eq_refl)); cbn [FlowB.nonzero andb].
  destruct (FlowB.admitted h lower); cbn [bind];
    apply IH; intros h' M; apply N; right; exact M.
Qed.

(** X19: on hits that carry no remote score, as the hits unwrapped from the
    CRM's items do, the scorer of flow B returns the first hit that
    passes the gate. *)
Theorem flowB_first_match_unscored (hits : list Hit) (term : string) :
  (forall h, In h hits -> result_score h = None) ->
  FlowB.findBestMatch (map Some hits) term =
  OK (find (fun h => FlowB.admitted h (toLowerCase term)) hits).
Proof.
  unfold FlowB.findBestMatch.
  induction hits as [|h hits IH]; intro N; [reflexivity|].
  cbn [map FlowB.reduce FlowB.step find].
  destruct (FlowB.admitted h (toLowerCase term)); cbn [bind].
  - apply reduce_unscored_keeps; intros h' M; apply N; right; exact M.
  - apply IH; intros h' M; apply N; right; exact M.
Qed.

Lemma flowB_first_match_unscored_witness :
  FlowB.findBestMatch (map Some Examples.unscored_hits) "acme" =
  OK (Some (Examples.hit (IdNum 13) "Acme East" None None)).
Proof.
  rewrite (flowB_first_match_unscored Examples.unscored_hits "acme").
  - reflexivity.
  - intros h [<-|[<-|[<-|[]]]]; reflexivity.
Defined.

Lemma flowB_activities_failure_masked_witness :
  FlowB.handler Examples.deal_search Examples.failing_get
    Examples.activities_completion (fun s => s) Examples.summary_input =
  OK {| textResponse := "deal without activities" |} /\
  FlowB.handler Examples.unscored_search Examples.failing_get
    Examples.activities_completion (fun s => s) Examples.summary_input =
  OK {| textResponse := "deal without activities" |}.
Proof.
  split.
  - rewrite (flowB_activities_failure_masked Examples.deal_search
               Examples.failing_get Examples.activities_completion
               (fun s => s) Examples.summary_input
               {| data := Some {| items := Some [] |} |}
               {| data := Some {| items :=
                    Some [Examples.wrapped 0.9 Examples.acme_five] |} |}
               None Examples.acme_five
               (Thrown "Request failed with status code 500")
               eq_refl eq_refl eq_refl eq_refl);
      [reflexivity|discriminate|reflexivity].
  - rewrite (flowB_activities_failure_masked Examples.unscored_search
               Examples.failing_get Examples.activities_completion
               (fun s => s) Examples.summary_input
               {| data := Some {| items :=
                    Some [Examples.wrapped 0.9 Examples.acme_five] |} |}
               {| data := Some {| items :=
                    Some [Examples.wrapped 0.9 Examples.acme_unscored] |} |}
               (Some Examples.acme_five) Examples.acme_unscored
               (Thrown "Request failed with status code 500")
               eq_refl eq_refl eq_refl eq_refl);
      [reflexivity|intros lead E; injection E as <-; reflexivity
      |reflexivity].
Defined.
